(** * A shallow embedding of [src/logger.py]

    The module builds a coloured, dual-sink logger on Python's [logging]
    package: a path filter ([RelativePathFilter]), a colouring formatter
    ([Formatter]), a daily rotating file handler ([FileHandler]) and the
    [Logger] facade.  The parts of [logging], [str], [datetime], [pathlib]
    and [os] the module calls into are transcribed next to the code that
    uses them. *)

From Stdlib Require Import ZArith Lia Bool List Ascii String DecimalString.
From stdpp Require Import base gmap strings.

Local Open Scope string_scope.

(** ** Python strings *)

Module PyStr.

(** [old in s]: some suffix of [s] starts with [old]. *)
Fixpoint contains (old s : string) : bool :=
  String.prefix old s ||
  match s with
  | EmptyString => false
  | String _ s' => contains old s'
  end.

(** Drop the first [n] characters, [s[n:]]. *)
Fixpoint drop (n : nat) (s : string) : string :=
  match n, s with
  | O, _ => s
  | S _, EmptyString => EmptyString
  | S k, String _ s' => drop k s'
  end.

(** [s.replace("", new)]: [new] goes before every character and at the end. *)
Fixpoint intersperse (new s : string) : string :=
  match s with
  | EmptyString => new
  | String c s' => new ++ String c (intersperse new s')
  end.

(** The scan of [s.replace(old, new)] for a non-empty [old]: at the leftmost
    occurrence emit [new] and resume after it, otherwise copy one character.
    [fuel] bounds the number of scan steps. *)
Fixpoint replace_scan (fuel : nat) (old new s : string) : string :=
  match fuel with
  | O => s
  | S fuel' =>
      match s with
      | EmptyString => EmptyString
      | String c s' =>
          if String.prefix old s
          then new ++ replace_scan fuel' old new (drop (String.length old) s)
          else String c (replace_scan fuel' old new s')
      end
  end.

(** [s.replace(old, new)] with the default count: every non-overlapping
    occurrence of [old], leftmost first. *)
Definition replace (s old new : string) : string :=
  match old with
  | EmptyString => intersperse new s
  | String _ _ => replace_scan (String.length s) old new s
  end.

(** [c in s] for a single character. *)
Fixpoint has_char (c : ascii) (s : string) : bool :=
  match s with
  | EmptyString => false
  | String d s' => Ascii.eqb c d || has_char c s'
  end.

End PyStr.

(** ** [datetime] *)

(** A [datetime.datetime] value (naive local time, as [today()] returns). *)
Record datetime := mk_datetime {
  year : Z; month : Z; day : Z;
  hour : Z; minute : Z; second : Z; microsecond : Z
}.

(** [t.date()]. *)
Definition date (t : datetime) : Z * Z * Z := (year t, month t, day t).

(** ["%d" % z]. *)
Definition decimal (z : Z) : string := NilZero.string_of_int (Z.to_int z).

(** [s.zfill(width)] for a digit string [s]. *)
Fixpoint zeros (n : nat) : string :=
  match n with O => "" | S k => String "0" (zeros k) end.

Definition zfill (width : nat) (s : string) : string :=
  zeros (width - String.length s) ++ s.

(** [t.strftime('%Y-%m-%d')]; [datetime] keeps [1 <= year <= 9999], and a
    year below 1000 is padded to four digits. *)
Definition strftime_Ymd (t : datetime) : string :=
  zfill 4 (decimal (year t)) ++ "-" ++ zfill 2 (decimal (month t)) ++ "-"
    ++ zfill 2 (decimal (day t)).

(** [t.strftime('%H:%M:%S')]. *)
Definition strftime_HMS (t : datetime) : string :=
  zfill 2 (decimal (hour t)) ++ ":" ++ zfill 2 (decimal (minute t)) ++ ":"
    ++ zfill 2 (decimal (second t)).

(** ** Log records *)

(** The [%]-arguments of a record, [record.args], by what [msg % args]
    evaluates to: [NoArgs] is the empty tuple of a call without arguments,
    [FitArgs text] are arguments the message accepts, with the text the
    operator returns, and [MisfitArgs] are arguments on which the operator
    raises [TypeError] (too few, too many, or of the wrong type). *)
Inductive Args := NoArgs | FitArgs (text : string) | MisfitArgs.

(** The attributes of [logging.LogRecord] that the module reads or writes.
    [msg] is the message as the caller gave it, [args] its [%]-arguments,
    [created] the local time of creation, and [exc_text] and [stack_info]
    are empty when the record carries no traceback. *)
Record LogRecord := mk_record {
  name : string;
  levelno : Z;
  levelname : string;
  pathname : string;
  lineno : Z;
  msg : string;
  args : Args;
  created : datetime;
  exc_text : string;
  stack_info : string
}.

Definition set_pathname (p : string) (r : LogRecord) : LogRecord :=
  {| name := name r; levelno := levelno r; levelname := levelname r;
     pathname := p; lineno := lineno r; msg := msg r; args := args r;
     created := created r;
     exc_text := exc_text r; stack_info := stack_info r |}.

(** [record.getMessage()]: [msg = str(self.msg); if self.args: msg = msg %
    self.args; return msg]; [None] stands for the [TypeError] of [%]. *)
Definition getMessage (record : LogRecord) : option string :=
  match args record with
  | NoArgs => Some (msg record)
  | FitArgs text => Some text
  | MisfitArgs => None
  end.

(** ** [LogLevelColors] *)

Module LogLevelColors.

Inductive t := DEBUG | INFO | WARNING | ERROR | CRITICAL | ENDC.

(** The escape character, ["\033"]. *)
Definition ESC : string := String (ascii_of_nat 27) "".

Definition value (c : t) : string :=
  match c with
  | DEBUG => ESC ++ "[96m"
  | INFO => ESC ++ "[92m"
  | WARNING => ESC ++ "[93m"
  | ERROR => ESC ++ "[33m"
  | CRITICAL => ESC ++ "[91m"
  | ENDC => ESC ++ "[0m"
  end.

(** [LogLevelColors[key]]; [None] stands for the [KeyError]. *)
Definition getitem (key : string) : option t :=
  if String.eqb key "DEBUG" then Some DEBUG
  else if String.eqb key "INFO" then Some INFO
  else if String.eqb key "WARNING" then Some WARNING
  else if String.eqb key "ERROR" then Some ERROR
  else if String.eqb key "CRITICAL" then Some CRITICAL
  else if String.eqb key "ENDC" then Some ENDC
  else None.

End LogLevelColors.

(** ** [RelativePathFilter] *)

Module RelativePathFilter.

(** [record.pathname.replace(os.getcwd(), "~")]. *)
Definition redact (path root : string) : string :=
  PyStr.replace path root "~".

(** [filter(record)] under working directory [cwd]: the record after the
    in-place assignment to [pathname], and the returned flag. *)
Definition filter (cwd : string) (record : LogRecord) : LogRecord * bool :=
  (set_pathname (redact (pathname record) cwd) record, true).

End RelativePathFilter.

(** ** [Formatter] *)

Module Formatter.

(** The line feed, ["\n"]. *)
Definition LF : ascii := ascii_of_nat 10.

(** [logging.Formatter.formatTime] with the default [datefmt]:
    ["%Y-%m-%d %H:%M:%S"] followed by [",%03d" % msecs]. *)
Definition formatTime (record : LogRecord) : string :=
  strftime_Ymd (created record) ++ " " ++ strftime_HMS (created record)
    ++ "," ++ zfill 3 (decimal (microsecond (created record) / 1000)).

(** The format string of [__init__],
    ["[%(asctime)s] | %(pathname)s:%(lineno)d | %(levelname)s | %(message)s"],
    applied to the record, whose [message] attribute is what [getMessage()]
    returned. *)
Definition formatMessage (record : LogRecord) (message : string) : string :=
  "[" ++ formatTime record ++ "] | " ++ pathname record ++ ":"
    ++ decimal (lineno record) ++ " | " ++ levelname record ++ " | "
    ++ message.

(** [s[-1:] != "\n"] *)
Fixpoint ends_with_LF (s : string) : bool :=
  match s with
  | EmptyString => false
  | String c EmptyString => Ascii.eqb c LF
  | String _ s' => ends_with_LF s'
  end.

(** [if extra: if s[-1:] != "\n": s = s + "\n"; s = s + extra]. *)
Definition append_block (s extra : string) : string :=
  match extra with
  | EmptyString => s
  | String _ _ =>
      (if ends_with_LF s then s else s ++ String LF "") ++ extra
  end.

(** [logging.Formatter.format] once [record.message] is set: the message
    line, then the traceback and the stack text when the record has them. *)
Definition base_format (record : LogRecord) (message : string) : string :=
  append_block (append_block (formatMessage record message) (exc_text record))
               (stack_info record).

(** [Formatter.format]: the colour is looked up first, then
    [super().format(record)] renders the message; [None] stands for the
    [KeyError] of the colour lookup or the [TypeError] of [getMessage()]. *)
Definition format (record : LogRecord) : option string :=
  match LogLevelColors.getitem (levelname record) with
  | Some colour =>
      match getMessage record with
      | Some message =>
          Some (LogLevelColors.value colour ++ base_format record message
                  ++ LogLevelColors.value LogLevelColors.ENDC)
      | None => None
      end
  | None => None
  end.

End Formatter.

(** ** The process environment *)

(** Where a handler writes: [sys.stderr] or an open file, named by the
    path the file was opened under. *)
Inductive stream_id :=
| Stderr
| FileStream (path : string).

(** What the module does to its environment, in program order. *)
Inductive event :=
| EvRecord (r : LogRecord)            (* a [LogRecord] is constructed *)
| EvSetLastEntry (t : datetime)       (* [self._last_entry = t] *)
| EvMkdir (path : string)
| EvOpen (path : string) (mode : string)
| EvWrite (s : stream_id) (text : string)
| EvFlush (s : stream_id)
| EvClose (path : string).

(** The state outside the logger objects.  [clock] lists the successive
    readings of the wall clock, [ticks] counts the readings taken so far;
    [files] maps a file's absolute path to its text.  [cls_last_entry] is
    the class attribute [FileHandler._last_entry].  Failures of the
    operating system (permissions, a full disk) are not part of the model:
    [mkdir] and [open] succeed. *)
Record World := mk_world {
  cwd : string;
  clock : nat -> datetime;
  ticks : nat;
  dirs : gset string;
  files : gmap string string;
  trace : list event;
  cls_last_entry : datetime
}.

Definition set_ticks (n : nat) (w : World) : World :=
  {| cwd := cwd w; clock := clock w; ticks := n; dirs := dirs w;
     files := files w; trace := trace w; cls_last_entry := cls_last_entry w |}.

Definition set_dirs (d : gset string) (w : World) : World :=
  {| cwd := cwd w; clock := clock w; ticks := ticks w; dirs := d;
     files := files w; trace := trace w; cls_last_entry := cls_last_entry w |}.

Definition set_files (f : gmap string string) (w : World) : World :=
  {| cwd := cwd w; clock := clock w; ticks := ticks w; dirs := dirs w;
     files := f; trace := trace w; cls_last_entry := cls_last_entry w |}.

Definition set_trace (t : list event) (w : World) : World :=
  {| cwd := cwd w; clock := clock w; ticks := ticks w; dirs := dirs w;
     files := files w; trace := t; cls_last_entry := cls_last_entry w |}.

Definition set_cls_last_entry (t : datetime) (w : World) : World :=
  {| cwd := cwd w; clock := clock w; ticks := ticks w; dirs := dirs w;
     files := files w; trace := trace w; cls_last_entry := t |}.

(** Computations that read and change the environment. *)
Definition M (A : Type) : Type := World -> A * World.

Definition ret {A} (a : A) : M A := fun w => (a, w).

Definition bind {A B} (c : M A) (k : A -> M B) : M B :=
  fun w => let (a, w') := c w in k a w'.

Notation "x <~ c ;; k" := (bind c (fun x => k))
  (at level 90, c at level 80, k at level 90, right associativity).
Notation "c ;;; k" := (bind c (fun _ => k))
  (at level 90, k at level 90, right associativity).

Definition emit_event (e : event) : M unit :=
  fun w => (tt, set_trace (trace w ++ [e]) w).

(** [datetime.datetime.today()], also the clock reading behind
    [time.time()]. *)
Definition today : M datetime :=
  fun w => (clock w (ticks w), set_ticks (S (ticks w)) w).

(** [os.getcwd()]. *)
Definition getcwd : M string := fun w => (cwd w, w).

(** [os.path.abspath(path)], without the normalisation of [.], [..] and
    repeated separators. *)
Definition abspath (cwd path : string) : string :=
  if String.prefix "/" path then path else cwd ++ "/" ++ path.

(** [folder / name] for a relative [name], rendered with [/]; [pathlib]
    would also drop a trailing separator of [folder]. *)
Definition joinpath (folder name : string) : string :=
  folder ++ "/" ++ name.

(** [pathlib.Path(path).mkdir(exist_ok=True)]. *)
Definition mkdir (path : string) : M unit :=
  p <~ (fun w => (abspath (cwd w) path, w)) ;;
  emit_event (EvMkdir p) ;;;
  fun w => (tt, set_dirs ({[p]} ∪ dirs w) w).

(** What [open(path, mode)] does to the file's text: ['w'] truncates, the
    other modes used here (['a']) create the file when it is missing and
    leave an existing one as it is. *)
Definition opened_text (mode : string) (old : option string) : string :=
  if String.eqb mode "w" then "" else default "" old.

(** [open(path, mode, encoding="utf-8")]; the handle is the absolute path. *)
Definition open (path mode : string) : M string :=
  p <~ (fun w => (abspath (cwd w) path, w)) ;;
  emit_event (EvOpen p mode) ;;;
  (fun w => (tt, set_files (<[p := opened_text mode (files w !! p)]> (files w)) w)) ;;;
  ret p.

(** [stream.write(text)]. *)
Definition stream_write (s : stream_id) (text : string) : M unit :=
  emit_event (EvWrite s text) ;;;
  match s with
  | Stderr => ret tt
  | FileStream p =>
      fun w => (tt, set_files (<[p := default "" (files w !! p) ++ text]> (files w)) w)
  end.

(** [stream.flush()]. *)
Definition stream_flush (s : stream_id) : M unit := emit_event (EvFlush s).

(** [stream.close()] on an open file. *)
Definition stream_close (path : string) : M unit := emit_event (EvClose path).

(** Executing the module body: the class statement of [FileHandler]
    evaluates [datetime.datetime.today()] once for [_last_entry]. *)
Definition import_module : M unit :=
  t <~ today ;; fun w => (tt, set_cls_last_entry t w).

(** ** The [logging] package, as far as the module relies on it *)

Module logging.

Definition NOTSET : Z := 0.
Definition DEBUG : Z := 10.
Definition INFO : Z := 20.
Definition WARNING : Z := 30.
Definition ERROR : Z := 40.
Definition CRITICAL : Z := 50.

(** [logging.getLevelName(level)] for an integer level. *)
Definition getLevelName (level : Z) : string :=
  if Z.eqb level CRITICAL then "CRITICAL"
  else if Z.eqb level ERROR then "ERROR"
  else if Z.eqb level WARNING then "WARNING"
  else if Z.eqb level INFO then "INFO"
  else if Z.eqb level DEBUG then "DEBUG"
  else if Z.eqb level NOTSET then "NOTSET"
  else "Level " ++ decimal level.

(** [Logger.manager.disable]; the module never calls [logging.disable]. *)
Definition manager_disable : Z := 0.

(** A filter object, by its [filter] method under a working directory. *)
Definition Filter : Type := string -> LogRecord -> LogRecord * bool.

(** [Filterer.filter]: the filters run in order on the one record object;
    the first falsy result rejects the record. *)
Fixpoint run_filters (fs : list Filter) (cwd : string) (record : LogRecord)
  : LogRecord * bool :=
  match fs with
  | [] => (record, true)
  | f :: fs' =>
      let (record', ok) := f cwd record in
      if ok then run_filters fs' cwd record' else (record', false)
  end.

Definition Filterer_filter (fs : list Filter) (record : LogRecord)
  : M (LogRecord * bool) :=
  d <~ getcwd ;; ret (run_filters fs d record).

(** [StreamHandler.emit] with the module's [Formatter] as formatter: one
    [write] of the formatted text and the terminator, then a flush.  An
    exception of [format] is caught and handed to [handleError], whose
    report is not modelled. *)
Definition StreamHandler_emit (s : stream_id) (record : LogRecord) : M unit :=
  match Formatter.format record with
  | Some text =>
      stream_write s (text ++ String Formatter.LF "") ;;; stream_flush s
  | None => ret tt
  end.

(** A [logging.StreamHandler()] on [sys.stderr]. *)
Record StreamHandler := mk_StreamHandler {
  filters : list Filter
}.

(** [Handler.handle] for the console handler; returns the record as the
    filters left it. *)
Definition StreamHandler_handle (h : StreamHandler) (record : LogRecord)
  : M LogRecord :=
  rv <~ Filterer_filter (filters h) record ;;
  (if snd rv then StreamHandler_emit Stderr (fst rv) else ret tt) ;;;
  ret (fst rv).

End logging.

(** ** [FileHandler] *)

Module FileHandler.

(** The instance attributes.  [stream] holds the open file, if any;
    [_last_entry] is the instance attribute of that name, absent until
    [emit] first assigns it, so that reads fall back to the class
    attribute. *)
Record t := mk {
  folder : string;
  ext : string;
  baseFilename : string;
  mode : string;
  stream : option string;
  _closed : bool;
  _last_entry : option datetime;
  filters : list logging.Filter
}.

Definition set_stream (s : option string) (h : t) : t :=
  {| folder := folder h; ext := ext h; baseFilename := baseFilename h;
     mode := mode h; stream := s; _closed := _closed h;
     _last_entry := _last_entry h; filters := filters h |}.

Definition set_closed (b : bool) (h : t) : t :=
  {| folder := folder h; ext := ext h; baseFilename := baseFilename h;
     mode := mode h; stream := stream h; _closed := b;
     _last_entry := _last_entry h; filters := filters h |}.

Definition set_baseFilename (p : string) (h : t) : t :=
  {| folder := folder h; ext := ext h; baseFilename := p;
     mode := mode h; stream := stream h; _closed := _closed h;
     _last_entry := _last_entry h; filters := filters h |}.

Definition set_last_entry (d : datetime) (h : t) : t :=
  {| folder := folder h; ext := ext h; baseFilename := baseFilename h;
     mode := mode h; stream := stream h; _closed := _closed h;
     _last_entry := Some d; filters := filters h |}.

Definition addFilter (f : logging.Filter) (h : t) : t :=
  {| folder := folder h; ext := ext h; baseFilename := baseFilename h;
     mode := mode h; stream := stream h; _closed := _closed h;
     _last_entry := _last_entry h; filters := filters h ++ [f] |}.

(** The name of the log file of day [d]:
    [f"{d.strftime('%Y-%m-%d')}-{ext}.log"] under [folder]. *)
Definition filename (folder : string) (d : datetime) (ext : string) : string :=
  joinpath folder (strftime_Ymd d ++ "-" ++ ext ++ ".log").

(** [self._last_entry]: the instance attribute, else the class one. *)
Definition get_last_entry (h : t) : M datetime :=
  fun w => (default (cls_last_entry w) (_last_entry h), w).

(** [logging.FileHandler._open]. *)
Definition _open (h : t) : M string := open (baseFilename h) (mode h).

(** [logging.FileHandler.close]: flush and close the stream if there is
    one, then [Handler.close] marks the handler closed. *)
Definition close (h : t) : M t :=
  match stream h with
  | Some p =>
      stream_flush (FileStream p) ;;; stream_close p ;;;
      ret (set_closed true (set_stream None h))
  | None => ret (set_closed true h)
  end.

(** [logging.FileHandler.emit]: reopen a missing stream (unless the
    handler was closed in mode ['w']), then [StreamHandler.emit]. *)
Definition super_emit (h : t) (record : LogRecord) : M t :=
  h' <~ match stream h with
        | Some _ => ret h
        | None =>
            if negb (String.eqb (mode h) "w") || negb (_closed h)
            then p <~ _open h ;; ret (set_stream (Some p) h)
            else ret h
        end ;;
  match stream h' with
  | Some p => logging.StreamHandler_emit (FileStream p) record ;;; ret h'
  | None => ret h'
  end.

(** [__init__(ext=ext, folder=folder)]. *)
Definition init (ext folder : string) : M t :=
  mkdir folder ;;;
  now <~ today ;;
  d <~ getcwd ;;
  let base := abspath d (filename folder now ext) in
  p <~ open base "a" ;;
  ret {| folder := folder; ext := ext; baseFilename := base; mode := "a";
         stream := Some p; _closed := false; _last_entry := None;
         filters := [] |}.

(** [emit(record)]. *)
Definition emit (h : t) (record : LogRecord) : M t :=
  last <~ get_last_entry h ;;
  now <~ today ;;
  if bool_decide (date last <> date now) then
    now' <~ today ;;
    emit_event (EvSetLastEntry now') ;;;
    let h := set_last_entry now' h in
    h <~ close h ;;
    let h := set_baseFilename (filename (folder h) now' (ext h)) h in
    p <~ _open h ;;
    let h := set_stream (Some p) h in
    super_emit h record
  else super_emit h record.

(** [Handler.handle]: run the handler's filters, then [emit]. *)
Definition handle (h : t) (record : LogRecord) : M (t * LogRecord) :=
  rv <~ logging.Filterer_filter (filters h) record ;;
  h' <~ (if snd rv then emit h (fst rv) else ret h) ;;
  ret (h', fst rv).

End FileHandler.

(** ** [Logger] *)

Module Logger.

(** The logger object: [name] and [level] of [logging.Logger], the console
    handler [_handler] and the optional [_file_handler].  [handlers] is the
    list [addHandler] built: the console handler, then the file handler.
    Both handlers keep the [Formatter] the constructors give them;
    [set_formatter] is left out. *)
Record t := mk {
  name : string;
  level : Z;
  _handler : logging.StreamHandler;
  _file_handler : option FileHandler.t
}.

Definition set_file_handler (fh : option FileHandler.t) (lg : t) : t :=
  {| name := name lg; level := level lg; _handler := _handler lg;
     _file_handler := fh |}.

(** The keyword arguments of a call of [Logger]: those of the signature
    that were passed, and any other keyword passed with its value. *)
Record kwargs := mk_kwargs {
  kw_name : option string;
  kw_level : option Z;
  kw_file_logging : option bool;
  kw_other : list (string * string)
}.

Inductive result (A : Type) :=
| Ok (a : A)
| TypeError.
Arguments Ok {A} a.
Arguments TypeError {A}.

(** [__init__(self, *, name, level=logging.DEBUG, file_logging=False)]:
    a keyword outside the signature or a missing [name] raises
    [TypeError] before the body runs. *)
Definition init (kw : kwargs) (w : World) : result (t * World) :=
  match kw_other kw, kw_name kw with
  | _ :: _, _ => TypeError
  | [], None => TypeError
  | [], Some name =>
      let level := default logging.DEBUG (kw_level kw) in
      let file_logging := default false (kw_file_logging kw) in
      let handler :=
        logging.mk_StreamHandler [RelativePathFilter.filter] in
      let lg := {| name := name; level := level; _handler := handler;
                   _file_handler := None |} in
      if file_logging then
        let (fh, w') := FileHandler.init name "logs" w in
        let fh := FileHandler.addFilter RelativePathFilter.filter fh in
        Ok (set_file_handler (Some fh) lg, w')
      else Ok (lg, w)
  end.

(** [getEffectiveLevel] of a logger without parent. *)
Definition getEffectiveLevel (lg : t) : Z :=
  if Z.eqb (level lg) 0 then logging.NOTSET else level lg.

(** [isEnabledFor(level)] of a logger that is not disabled. *)
Definition isEnabledFor (lg : t) (lvl : Z) : bool :=
  if Z.geb logging.manager_disable lvl then false
  else Z.geb lvl (getEffectiveLevel lg).

(** [callHandlers(record)]: each handler of [handlers] in turn handles the
    one record object (handler levels are [NOTSET]). *)
Definition callHandlers (lg : t) (record : LogRecord) : M t :=
  record <~ logging.StreamHandler_handle (_handler lg) record ;;
  match _file_handler lg with
  | Some fh =>
      rv <~ FileHandler.handle fh record ;;
      ret (set_file_handler (Some (fst rv)) lg)
  | None => ret lg
  end.

(** [_log(level, msg, ())]: build the record for the caller's file and
    line, without [%]-arguments, then [handle] it. *)
Definition _log (lvl : Z) (message fn : string) (lno : Z) (lg : t) : M t :=
  now <~ today ;;
  let record :=
    mk_record (name lg) lvl (logging.getLevelName lvl) fn lno message NoArgs
              now "" "" in
  emit_event (EvRecord record) ;;;
  callHandlers lg record.

(** [log(level, msg)], and the five methods [debug] ... [critical]. *)
Definition log (lvl : Z) (message fn : string) (lno : Z) (lg : t) : M t :=
  if isEnabledFor lg lvl then _log lvl message fn lno lg else ret lg.

Definition debug := log logging.DEBUG.
Definition info := log logging.INFO.
Definition warning := log logging.WARNING.
Definition error := log logging.ERROR.
Definition critical := log logging.CRITICAL.

End Logger.

(** The severities with a method of their own. *)
Inductive Severity := SDebug | SInfo | SWarning | SError | SCritical.

Definition severity_level (s : Severity) : Z :=
  match s with
  | SDebug => logging.DEBUG
  | SInfo => logging.INFO
  | SWarning => logging.WARNING
  | SError => logging.ERROR
  | SCritical => logging.CRITICAL
  end.

(** The log method of a severity. *)
Definition log_method (s : Severity)
  : string -> string -> Z -> Logger.t -> M Logger.t :=
  match s with
  | SDebug => Logger.debug
  | SInfo => Logger.info
  | SWarning => Logger.warning
  | SError => Logger.error
  | SCritical => Logger.critical
  end.

(** The member of [LogLevelColors] that carries the name of a severity. *)
Definition severity_colour (s : Severity) : LogLevelColors.t :=
  match s with
  | SDebug => LogLevelColors.DEBUG
  | SInfo => LogLevelColors.INFO
  | SWarning => LogLevelColors.WARNING
  | SError => LogLevelColors.ERROR
  | SCritical => LogLevelColors.CRITICAL
  end.

(** A text is a single line when it holds no line feed. *)
Definition single_line (s : string) : bool :=
  negb (PyStr.has_char Formatter.LF s).

(** ** Reading a trace *)

(** The number of file handles open after an event, [n] being open before. *)
Definition handles_after (n : nat) (e : event) : nat :=
  match e with
  | EvOpen _ _ => S n
  | EvClose _ => Nat.pred n
  | _ => n
  end.

(** The largest number of file handles open at any instant of a trace that
    starts with [n] handles open. *)
Fixpoint max_open_handles (n : nat) (tr : list event) : nat :=
  match tr with
  | [] => n
  | e :: tr' => Nat.max n (max_open_handles (handles_after n e) tr')
  end.

Definition is_set_last_entry (e : event) : bool :=
  match e with EvSetLastEntry _ => true | _ => false end.

Definition is_open (e : event) : bool :=
  match e with EvOpen _ _ => true | _ => false end.

Definition is_close (e : event) : bool :=
  match e with EvClose _ => true | _ => false end.

Definition is_record (e : event) : bool :=
  match e with EvRecord _ => true | _ => false end.

Definition is_write (e : event) : bool :=
  match e with EvWrite _ _ => true | _ => false end.

Definition is_write_to (s : stream_id) (e : event) : bool :=
  match e, s with
  | EvWrite Stderr _, Stderr => true
  | EvWrite (FileStream p) _, FileStream q => String.eqb p q
  | _, _ => false
  end.

(** The position of the first event of a kind. *)
Fixpoint first_index (kind : event -> bool) (tr : list event) : option nat :=
  match tr with
  | [] => None
  | e :: tr' => if kind e then Some 0 else S <$> first_index kind tr'
  end.

(** The number of events of a kind. *)
Definition count (kind : event -> bool) (tr : list event) : nat :=
  List.length (List.filter kind tr).

(** The handlers of a logger, as [addHandler] listed them. *)
Inductive sink :=
| ConsoleSink (h : logging.StreamHandler)
| FileSink (h : FileHandler.t).

Definition handlers (lg : Logger.t) : list sink :=
  ConsoleSink (Logger._handler lg) ::
  match Logger._file_handler lg with
  | Some fh => [FileSink fh]
  | None => []
  end.

(** ** Objects built by the module *)

(** A file handler as [__init__] builds it, with any filters added and after
    any number of [emit] calls, in whatever environment. *)
Inductive FileHandler_built : FileHandler.t -> Prop :=
| fh_init ext folder w :
    FileHandler_built (fst (FileHandler.init ext folder w))
| fh_addFilter f h :
    FileHandler_built h -> FileHandler_built (FileHandler.addFilter f h)
| fh_emit h record w :
    FileHandler_built h -> FileHandler_built (fst (FileHandler.emit h record w)).

(** A logger as [__init__] builds it, after any number of log calls. *)
Inductive Logger_built : Logger.t -> Prop :=
| lg_init kw w lg w' :
    Logger.init kw w = Logger.Ok (lg, w') -> Logger_built lg
| lg_log lvl message fn lno lg w :
    Logger_built lg -> Logger_built (fst (Logger.log lvl message fn lno lg w)).

(** What holds of every logger the module builds: both handlers carry the
    path filter, and the file handler, when there is one, is in append mode
    with its stream open. *)
Definition Logger_inv (lg : Logger.t) : Prop :=
  logging.filters (Logger._handler lg) = [RelativePathFilter.filter]
  /\ forall fh, Logger._file_handler lg = Some fh ->
       FileHandler.mode fh = "a"
       /\ (exists p, FileHandler.stream fh = Some p)
       /\ FileHandler.filters fh = [RelativePathFilter.filter].

(** ** A sample environment *)

Definition day1 : datetime := mk_datetime 2024 1 1 9 0 0 0.
Definition day2 : datetime := mk_datetime 2024 1 2 9 0 0 0.

(** An empty file system under [/srv/app], with the given clock readings. *)
Definition sample_world (readings : list datetime) : World :=
  {| cwd := "/srv/app"; clock := fun n => nth n readings day1; ticks := 0;
     dirs := ∅; files := ∅; trace := []; cls_last_entry := day1 |}.

Definition sample_record : LogRecord :=
  {| name := "svc"; levelno := logging.ERROR; levelname := "ERROR";
     pathname := "~/main.py"; lineno := 7; msg := "boom";
     args := NoArgs; created := day2; exc_text := ""; stack_info := "" |}.

(** ** The entry point *)

(** The text a stream received during a trace: what [getvalue()] returns
    for an [io.StringIO] that stood in for [sys.stderr], or what was
    appended to a file. *)
Fixpoint written_to (s : stream_id) (tr : list event) : string :=
  match tr with
  | [] => ""
  | e :: tr' =>
      (if is_write_to s e
       then match e with EvWrite _ text => text | _ => "" end
       else "") ++ written_to s tr'
  end.

(** [main()] of [__main__.py], the module being the file [file]: the
    logger [Logger(name="application", file_logging=False)] and the call
    [logs.info("Hello, world!")] on line 7. *)
Definition main (file : string) (w : World) : Logger.result (Logger.t * World) :=
  match Logger.init (Logger.mk_kwargs (Some "application") None (Some false) [])
                    w with
  | Logger.TypeError => Logger.TypeError
  | Logger.Ok (logs, w1) =>
      Logger.Ok (Logger.info "Hello, world!" file 7 logs w1)
  end.

(** The dates a [datetime] can hold. *)
Definition valid_date (t : datetime) : Prop :=
  (1 <= year t <= 9999)%Z /\ (1 <= month t <= 12)%Z /\ (1 <= day t <= 31)%Z.

(** [int(s)] for a string of decimal digits, onto the value [acc] of the
    digits already read. *)
Fixpoint digits_value (acc : Z) (s : string) : Z :=
  match s with
  | EmptyString => acc
  | String c s' =>
      digits_value (10 * acc + (Z.of_nat (nat_of_ascii c) - 48)) s'
  end.

(** Whether [n], padded to [width] digits, has that width and reads back
    as [n]. *)
Definition renders_back (width n : nat) : bool :=
  let s := zfill width (decimal (Z.of_nat n)) in
  Nat.eqb (String.length s) width && Z.eqb (digits_value 0 s) (Z.of_nat n).

(** ** [Logger.set_formatter] *)

(** A formatter object, by its [format] method on a record it does not
    modify; [None] stands for an exception. *)
Definition formatter : Type := LogRecord -> option string.

Module Configurable.

(** A logger with the [formatter] attribute of its handlers: that of
    [_handler] and that of [_file_handler]; without file handler the second
    field is never read. *)
Record t := mk {
  logger : Logger.t;
  console_formatter : formatter;
  file_formatter : formatter
}.

(** [Logger(...)]: [Logger.__init__] gives the console handler a
    [Formatter()], [FileHandler.__init__] gives the file handler one. *)
Definition init (kw : Logger.kwargs) (w : World) : Logger.result (t * World) :=
  match Logger.init kw w with
  | Logger.TypeError => Logger.TypeError
  | Logger.Ok (lg, w') =>
      Logger.Ok
        ({| logger := lg; console_formatter := Formatter.format;
            file_formatter := Formatter.format |}, w')
  end.

(** [set_formatter(formatter)]. *)
Definition set_formatter (f : formatter) (st : t) : t :=
  {| logger := logger st;
     console_formatter := f;
     file_formatter :=
       match Logger._file_handler (logger st) with
       | Some _ => f
       | None => file_formatter st
       end |}.

(** [StreamHandler.emit] with the handler's formatter. *)
Definition StreamHandler_emit (f : formatter) (s : stream_id)
    (record : LogRecord) : M unit :=
  match f record with
  | Some text =>
      stream_write s (text ++ String Formatter.LF "") ;;; stream_flush s
  | None => ret tt
  end.

(** [logging.FileHandler.emit] with the handler's formatter. *)
Definition super_emit (f : formatter) (h : FileHandler.t) (record : LogRecord)
  : M FileHandler.t :=
  h' <~ match FileHandler.stream h with
        | Some _ => ret h
        | None =>
            if negb (String.eqb (FileHandler.mode h) "w")
               || negb (FileHandler._closed h)
            then p <~ FileHandler._open h ;;
                 ret (FileHandler.set_stream (Some p) h)
            else ret h
        end ;;
  match FileHandler.stream h' with
  | Some p => StreamHandler_emit f (FileStream p) record ;;; ret h'
  | None => ret h'
  end.

(** [FileHandler.emit] with the handler's formatter. *)
Definition emit (f : formatter) (h : FileHandler.t) (record : LogRecord)
  : M FileHandler.t :=
  last <~ FileHandler.get_last_entry h ;;
  now <~ today ;;
  if bool_decide (date last <> date now) then
    now' <~ today ;;
    emit_event (EvSetLastEntry now') ;;;
    let h := FileHandler.set_last_entry now' h in
    h <~ FileHandler.close h ;;
    let h :=
      FileHandler.set_baseFilename
        (FileHandler.filename (FileHandler.folder h) now' (FileHandler.ext h)) h in
    p <~ FileHandler._open h ;;
    let h := FileHandler.set_stream (Some p) h in
    super_emit f h record
  else super_emit f h record.

(** [callHandlers(record)]: each handler filters the one record object and
    emits it with its own formatter. *)
Definition callHandlers (st : t) (record : LogRecord) : M t :=
  rv <~ logging.Filterer_filter (logging.filters (Logger._handler (logger st)))
          record ;;
  (if snd rv then StreamHandler_emit (console_formatter st) Stderr (fst rv)
   else ret tt) ;;;
  match Logger._file_handler (logger st) with
  | Some fh =>
      rv' <~ logging.Filterer_filter (FileHandler.filters fh) (fst rv) ;;
      fh' <~ (if snd rv' then emit (file_formatter st) fh (fst rv')
              else ret fh) ;;
      ret {| logger := Logger.set_file_handler (Some fh') (logger st);
             console_formatter := console_formatter st;
             file_formatter := file_formatter st |}
  | None => ret st
  end.

(** [log(level, msg)] from line [lno] of file [fn]. *)
Definition log (lvl : Z) (message fn : string) (lno : Z) (st : t) : M t :=
  if Logger.isEnabledFor (logger st) lvl then
    now <~ today ;;
    let record :=
      mk_record (Logger.name (logger st)) lvl (logging.getLevelName lvl) fn lno
                message NoArgs now "" "" in
    emit_event (EvRecord record) ;;;
    callHandlers st record
  else ret st.

End Configurable.

(** A logger with its formatters as the constructor builds it, after any
    number of [set_formatter] and log calls. *)
Inductive Configurable_built : Configurable.t -> Prop :=
| cf_init kw w st w' :
    Configurable.init kw w = Logger.Ok (st, w') -> Configurable_built st
| cf_set_formatter f st :
    Configurable_built st -> Configurable_built (Configurable.set_formatter f st)
| cf_log lvl message fn lno st w :
    Configurable_built st ->
    Configurable_built (fst (Configurable.log lvl message fn lno st w)).

(** ** Sample objects *)

Definition sample_kwargs : Logger.kwargs :=
  Logger.mk_kwargs (Some "svc") None (Some true) [].

(** The handler [FileHandler(ext="svc")] built on [day1]. *)
Definition sample_handler : FileHandler.t :=
  fst (FileHandler.init "svc" "logs" (sample_world [])).

(** The world that handler leaves, with the given clock readings to come:
    the first reading was spent by the constructor. *)
Definition sample_started (readings : list datetime) : World :=
  snd (FileHandler.init "svc" "logs" (sample_world (day1 :: readings))).

(** The logger [Logger(name="svc", file_logging=True)] built on [day1]. *)
Definition sample_logger : Logger.t :=
  match Logger.init sample_kwargs (sample_world []) with
  | Logger.Ok (lg, _) => lg
  | Logger.TypeError => Logger.mk "" 0 (logging.mk_StreamHandler []) None
  end.

(** A formatter that prints the message alone. *)
Definition message_only : formatter := fun record => Some (msg record).

(** * Properties *)

(** ** Worked examples *)

Example replace_all_occurrences :
  PyStr.replace "/srv/app/srv/x.py" "/srv" "~" = "~/app~/x.py".
Proof. reflexivity. Qed.

Example replace_overlapping :
  PyStr.replace "aaa" "aa" "~" = "~a".
Proof. reflexivity. Qed.

Example replace_empty_pattern :
  PyStr.replace "ab" "" "~" = "~a~b~".
Proof. reflexivity. Qed.

(** The example of the [Logger] docstring. *)
Example format_docstring :
  Formatter.format
    {| name := "application"; levelno := 20; levelname := "INFO";
       pathname := "application/logger.py"; lineno := 95;
       msg := "Hello, world!"; args := NoArgs;
       created := mk_datetime 2021 8 29 17 5 32 0;
       exc_text := ""; stack_info := "" |}
  = Some (LogLevelColors.ESC ++ "[92m"
          ++ "[2021-08-29 17:05:32,000] | application/logger.py:95 | INFO | Hello, world!"
          ++ LogLevelColors.ESC ++ "[0m").
Proof. reflexivity. Qed.

(** ** String replacement *)

Section Replace.

Import PyStr.

Lemma prefix_cons_inv a u b s :
  String.prefix (String a u) (String b s) = true ->
  a = b /\ String.prefix u s = true.
Proof.
  simpl. destruct (ascii_dec a b) as [->|]; [auto | discriminate].
Qed.

Lemma app_cons a s t : String a s ++ t = String a (s ++ t).
Proof. reflexivity. Qed.

Lemma str_app_assoc (a b c : string) : (a ++ b) ++ c = a ++ b ++ c.
Proof.
  induction a as [|x a IH]; [reflexivity|].
  rewrite !app_cons. now rewrite IH.
Qed.

Lemma str_app_nil_r (a : string) : a ++ "" = a.
Proof.
  induction a as [|x a IH]; [reflexivity|]. rewrite app_cons. now rewrite IH.
Qed.

Lemma prefix_nil s : String.prefix "" s = true.
Proof. now destruct s. Qed.

Lemma prefix_app old rest : String.prefix old (old ++ rest) = true.
Proof.
  induction old as [|a old IH]; [apply prefix_nil|].
  rewrite app_cons. simpl.
  destruct (ascii_dec a a); [exact IH | congruence].
Qed.

Lemma drop_app old rest : drop (String.length old) (old ++ rest) = rest.
Proof.
  induction old as [|a old IH]; [now destruct rest|].
  rewrite app_cons. exact IH.
Qed.

Lemma drop_length n s : String.length (drop n s) = String.length s - n.
Proof.
  revert s. induction n as [|n IH]; intros [|c s]; simpl; auto.
Qed.

(** Any fuel that covers the length of the text gives the same scan. *)
Lemma replace_scan_enough old new f : forall g s,
  old <> "" ->
  String.length s <= f -> String.length s <= g ->
  replace_scan f old new s = replace_scan g old new s.
Proof.
  induction f as [|f IH]; intros g s Hold Hf Hg.
  - destruct s; simpl in Hf; [|lia]. now destruct g.
  - destruct g as [|g].
    + destruct s; simpl in Hg; [reflexivity | lia].
    + simpl. destruct s as [|c s]; [reflexivity|].
      simpl in Hf, Hg.
      destruct (String.prefix old (String c s)).
      * f_equal. apply IH; trivial; rewrite drop_length;
          destruct old; simpl in *; try congruence; lia.
      * f_equal. apply IH; trivial; lia.
  Qed.

Section Root.

Variable root : string.
Hypothesis root_nonempty : root <> "".

Let redact (p : string) := RelativePathFilter.redact p root.

Lemma redact_scan s :
  redact s = replace_scan (String.length s) root "~" s.
Proof.
  unfold redact, RelativePathFilter.redact, replace.
  destruct root; [congruence | reflexivity].
Qed.

Lemma redact_nil : redact "" = "".
Proof. now rewrite redact_scan. Qed.

(** At an occurrence of the root: the marker, then the scan resumes
    behind the occurrence. *)
Lemma redact_match s :
  s <> "" -> String.prefix root s = true ->
  redact s = "~" ++ redact (drop (String.length root) s).
Proof.
  intros Hs Hp. rewrite !redact_scan.
  destruct s as [|c s]; [congruence|].
  cbn [String.length replace_scan]. rewrite Hp. f_equal.
  apply replace_scan_enough; trivial; rewrite drop_length;
    destruct root; simpl in *; try congruence; lia.
Qed.

(** Elsewhere: the character is copied. *)
Lemma redact_skip c s :
  String.prefix root (String c s) = false ->
  redact (String c s) = String c (redact s).
Proof.
  intros Hp. rewrite !redact_scan.
  cbn [String.length replace_scan]. now rewrite Hp.
Qed.

(** Induction along the scan. *)
Lemma redact_ind (P : string -> Prop) :
  P "" ->
  (forall s, s <> "" -> String.prefix root s = true ->
             P (drop (String.length root) s) -> P s) ->
  (forall c s, String.prefix root (String c s) = false ->
               P s -> P (String c s)) ->
  forall s, P s.
Proof.
  intros Hnil Hmatch Hskip s.
  remember (String.length s) as n eqn:Hn.
  revert s Hn. induction n as [n IH] using lt_wf_ind. intros s Hn.
  destruct s as [|c s]; [exact Hnil|].
  destruct (String.prefix root (String c s)) eqn:Hp.
  - apply Hmatch; [congruence | exact Hp |].
    eapply IH; [|reflexivity]. rewrite drop_length. subst n.
    destruct root; simpl in *; try congruence; lia.
  - apply Hskip; [exact Hp|]. eapply IH; [|reflexivity].
    subst n. simpl. lia.
Qed.

Lemma redact_app rest : redact (root ++ rest) = "~" ++ redact rest.
Proof.
  rewrite redact_match.
  - now rewrite drop_app.
  - destruct root; [congruence | discriminate].
  - apply prefix_app.
Qed.

(** A text without occurrence of the root is left as it is. *)
Lemma redact_absent s : contains root s = false -> redact s = s.
Proof.
  induction s as [|c s IH]; intros H; [apply redact_nil|].
  cbn [contains] in H. apply orb_false_iff in H as [Hp Hc].
  rewrite redact_skip by exact Hp. now rewrite IH.
Qed.

Hypothesis root_no_marker : has_char "~" root = false.

(** What the redacted text starts with, short of the marker, the
    original text starts with too. *)
Lemma redact_prefix_reflect s : forall u,
  has_char "~" u = false ->
  String.prefix u (redact s) = true -> String.prefix u s = true.
Proof.
  induction s as [| s Hs Hp IH | c s Hp IH] using redact_ind;
    intros u Hu Hpre.
  - now rewrite redact_nil in Hpre.
  - destruct u as [|d u]; [apply prefix_nil|].
    rewrite redact_match in Hpre by assumption.
    apply prefix_cons_inv in Hpre as [-> _].
    simpl in Hu. discriminate.
  - destruct u as [|d u]; [apply prefix_nil|].
    rewrite redact_skip in Hpre by assumption.
    apply prefix_cons_inv in Hpre as [-> Hpre].
    simpl in Hu. apply orb_false_iff in Hu as [_ Hu].
    simpl. destruct (ascii_dec c c); [|congruence].
    now apply IH.
Qed.

(** No occurrence of the root survives the redaction. *)
Lemma redact_removes_root s : contains root (redact s) = false.
Proof.
  induction s as [| s Hs Hp IH | c s Hp IH] using redact_ind.
  - rewrite redact_nil. destruct root; [congruence | reflexivity].
  - rewrite redact_match by assumption.
    change ("~" ++ ?x) with (String "~" x).
    cbn [contains]. rewrite IH, orb_false_r.
    destruct root as [|a r]; [congruence|].
    simpl in root_no_marker. apply orb_false_iff in root_no_marker as [Ha _].
    simpl. destruct (ascii_dec a "~") as [->|]; [discriminate | reflexivity].
  - rewrite redact_skip by assumption.
    cbn [contains]. rewrite IH, orb_false_r.
    destruct (String.prefix root (String c (redact s))) eqn:E; [|reflexivity].
    rewrite <- redact_skip in E by assumption.
    apply redact_prefix_reflect in E; congruence.
Qed.

Lemma redact_twice s : redact (redact s) = redact s.
Proof. apply redact_absent, redact_removes_root. Qed.

End Root.

End Replace.

(** ** Path redaction *)

(** C4, as the specification words it, does not hold: the root is replaced
    wherever it occurs, so text behind a leading occurrence is rewritten
    too.  With root [/srv], the path [/srv/app/srv/x.py] becomes
    [~/app~/x.py] and not [~/app/srv/x.py]. *)
Lemma redact_prefix_only_counterexample :
  RelativePathFilter.redact ("/srv" ++ "/app/srv/x.py") "/srv" = "~/app~/x.py"
  /\ RelativePathFilter.redact ("/srv" ++ "/app/srv/x.py") "/srv"
     <> "~" ++ "/app/srv/x.py".
Proof. split; [reflexivity | discriminate]. Qed.

(** C4, amended: for a non-empty root, redaction replaces every
    non-overlapping occurrence of the root, leftmost first, by the marker
    and copies every other character.  A leading occurrence becomes the
    marker and the remainder is redacted in turn; the remainder is unchanged
    when the root does not occur in it, and a path without occurrence of the
    root is returned as it is. *)
Theorem redact_replaces_each_occurrence (root : string) :
  root <> "" ->
  RelativePathFilter.redact "" root = ""
  /\ (forall rest,
        RelativePathFilter.redact (root ++ rest) root
        = "~" ++ RelativePathFilter.redact rest root)
  /\ (forall c s,
        String.prefix root (String c s) = false ->
        RelativePathFilter.redact (String c s) root
        = String c (RelativePathFilter.redact s root))
  /\ (forall rest,
        PyStr.contains root rest = false ->
        RelativePathFilter.redact (root ++ rest) root = "~" ++ rest)
  /\ (forall p,
        PyStr.contains root p = false -> RelativePathFilter.redact p root = p).
Proof.
  intros Hroot. repeat split.
  - now apply redact_nil.
  - now apply redact_app.
  - now apply redact_skip.
  - intros rest H. rewrite redact_app by assumption.
    now rewrite redact_absent.
  - now apply redact_absent.
Qed.

Lemma redact_replaces_each_occurrence_witness :
  RelativePathFilter.redact ("/srv" ++ "/app/main.py") "/srv" = "~" ++ "/app/main.py".
Proof.
  assert (Hroot : "/srv" <> "") by discriminate.
  destruct (redact_replaces_each_occurrence "/srv" Hroot) as (_ & _ & _ & H & _).
  apply H. reflexivity.
Defined.

(** C5, as the specification words it, does not hold: when the root itself
    contains the marker, a redacted path can contain the root again.  With
    root [/srv/~app], the path [/srv//srv/~appapp] is redacted to
    [/srv/~app], and that to [~]. *)
Lemma redact_idempotent_counterexample :
  RelativePathFilter.redact "/srv//srv/~appapp" "/srv/~app" = "/srv/~app"
  /\ RelativePathFilter.redact
       (RelativePathFilter.redact "/srv//srv/~appapp" "/srv/~app") "/srv/~app"
     = "~"
  /\ RelativePathFilter.redact
       (RelativePathFilter.redact "/srv//srv/~appapp" "/srv/~app") "/srv/~app"
     <> RelativePathFilter.redact "/srv//srv/~appapp" "/srv/~app".
Proof.
  split; [reflexivity | split; [reflexivity |]].
  vm_compute. discriminate.
Qed.

(** C5, amended: for every path and every non-empty root in which the
    marker character does not occur, redacting a redacted path changes
    nothing.  Redaction is a total function of the two strings. *)
Theorem redact_idempotent (p root : string) :
  root <> "" ->
  PyStr.has_char "~" root = false ->
  RelativePathFilter.redact (RelativePathFilter.redact p root) root
  = RelativePathFilter.redact p root.
Proof. intros Hne Hm. now apply redact_twice. Qed.

Lemma redact_idempotent_witness :
  RelativePathFilter.redact
    (RelativePathFilter.redact "/srv/app/srv/x.py" "/srv") "/srv"
  = RelativePathFilter.redact "/srv/app/srv/x.py" "/srv".
Proof. apply redact_idempotent; [discriminate | reflexivity]. Defined.

(** C10: the filter accepts every record, and the record it leaves differs
    from the one it received in the [pathname] attribute only. *)
Theorem filter_accepts_and_frames (cwd : string) (record : LogRecord) :
  snd (RelativePathFilter.filter cwd record) = true
  /\ pathname (fst (RelativePathFilter.filter cwd record))
     = RelativePathFilter.redact (pathname record) cwd
  /\ name (fst (RelativePathFilter.filter cwd record)) = name record
  /\ levelno (fst (RelativePathFilter.filter cwd record)) = levelno record
  /\ levelname (fst (RelativePathFilter.filter cwd record)) = levelname record
  /\ lineno (fst (RelativePathFilter.filter cwd record)) = lineno record
  /\ msg (fst (RelativePathFilter.filter cwd record)) = msg record
  /\ args (fst (RelativePathFilter.filter cwd record)) = args record
  /\ created (fst (RelativePathFilter.filter cwd record)) = created record
  /\ exc_text (fst (RelativePathFilter.filter cwd record)) = exc_text record
  /\ stack_info (fst (RelativePathFilter.filter cwd record)) = stack_info record.
Proof. repeat split. Qed.

(** ** Formatting *)

Section SingleLine.

Import PyStr.

Lemma has_char_app c a b :
  has_char c (a ++ b) = has_char c a || has_char c b.
Proof.
  induction a as [|d a IH]; [reflexivity|].
  rewrite app_cons. simpl. now rewrite IH, orb_assoc.
Qed.

Lemma single_line_app a b :
  single_line (a ++ b) = single_line a && single_line b.
Proof. unfold single_line. now rewrite has_char_app, negb_orb. Qed.

Lemma single_line_digits d : single_line (NilEmpty.string_of_uint d) = true.
Proof.
  unfold single_line. induction d; simpl; trivial.
Qed.

Lemma single_line_decimal z : single_line (decimal z) = true.
Proof.
  unfold decimal. destruct (Z.to_int z) as [d|d].
  - destruct d; try reflexivity; apply (single_line_digits (_ _)).
  - unfold NilZero.string_of_int.
    change (String "-" ?x) with ("-" ++ x). rewrite single_line_app.
    destruct d; try reflexivity; apply (single_line_digits (_ _)).
Qed.

Lemma single_line_zfill n s : single_line s = true -> single_line (zfill n s) = true.
Proof.
  intros H. unfold zfill. rewrite single_line_app, H, andb_true_r.
  induction (n - String.length s) as [|k IH]; [reflexivity | exact IH].
Qed.

Lemma single_line_formatTime r : single_line (Formatter.formatTime r) = true.
Proof.
  unfold Formatter.formatTime, strftime_Ymd, strftime_HMS.
  repeat rewrite single_line_app.
  repeat rewrite single_line_zfill by apply single_line_decimal.
  reflexivity.
Qed.

End SingleLine.

(** C6, as the specification words it, does not hold: the message is
    copied as it is, so a record whose message holds a line feed is
    rendered on two lines. *)
Lemma format_one_line_counterexample :
  let record :=
    {| name := "application"; levelno := logging.INFO; levelname := "INFO";
       pathname := "~/main.py"; lineno := 7;
       msg := "first" ++ String Formatter.LF "second"; args := NoArgs;
       created := mk_datetime 2021 8 29 17 5 32 0;
       exc_text := ""; stack_info := "" |} in
  exists text,
    Formatter.format record = Some text /\ single_line text = false.
Proof. eexists. split; reflexivity. Qed.

(** A record whose arguments do not fit its message is not rendered:
    [getMessage()] raises before any text is built. *)
Lemma format_misfit (record : LogRecord) :
  args record = MisfitArgs -> Formatter.format record = None.
Proof.
  intros H. unfold Formatter.format, getMessage. rewrite H.
  now destruct (LogLevelColors.getitem (levelname record)).
Qed.

(** C6, amended: for every well-formed record, that is one whose level name
    is that of one of the five severities and whose arguments, if any, fit
    its message, so that [getMessage()] returns a text [message], [format]
    does not raise and returns the colour code of the severity, then
    [[timestamp] | path:line | SEVERITY | message] in this order, then the
    traceback text when the record has one, then the stack text when it has
    one, each started on a line of its own, then the reset code.  Without
    traceback and stack text, and with no line feed in path and message,
    the result is exactly one line. *)
Theorem format_layout (record : LogRecord) (s : Severity) (message : string) :
  levelname record = logging.getLevelName (severity_level s) ->
  getMessage record = Some message ->
  let colour := LogLevelColors.value (severity_colour s) in
  let reset := LogLevelColors.value LogLevelColors.ENDC in
  let line :=
    "[" ++ Formatter.formatTime record ++ "] | " ++ pathname record ++ ":"
      ++ decimal (lineno record) ++ " | "
      ++ logging.getLevelName (severity_level s) ++ " | " ++ message in
  let on_own_line (head block : string) :=
    (if Formatter.ends_with_LF head then head
     else head ++ String Formatter.LF "") ++ block in
  let with_traceback :=
    match exc_text record with
    | "" => line
    | String _ _ => on_own_line line (exc_text record)
    end in
  let body :=
    match stack_info record with
    | "" => with_traceback
    | String _ _ => on_own_line with_traceback (stack_info record)
    end in
  Formatter.format record = Some (colour ++ body ++ reset)
  /\ (String.prefix (colour ++ line) (colour ++ body ++ reset) = true)
  /\ (exc_text record = "" -> stack_info record = "" ->
      Formatter.format record = Some (colour ++ line ++ reset)
      /\ (single_line (pathname record) = true ->
          single_line message = true ->
          single_line (colour ++ line ++ reset) = true)).
Proof.
  intros Hname Hmsg colour reset line on_own_line with_traceback body.
  assert (Hcolour : LogLevelColors.getitem (levelname record)
                    = Some (severity_colour s))
    by (rewrite Hname; now destruct s).
  assert (Hfmt : Formatter.format record = Some (colour ++ body ++ reset)).
  { unfold Formatter.format. rewrite Hcolour, Hmsg.
    unfold Formatter.base_format, Formatter.append_block,
      Formatter.formatMessage.
    rewrite Hname. subst body with_traceback on_own_line line colour reset.
    now destruct (exc_text record), (stack_info record). }
  split; [exact Hfmt|]. split.
  - assert (Hown : forall head block, exists rest,
                     on_own_line head block = head ++ rest).
    { intros head block. subst on_own_line. cbv beta.
      destruct (Formatter.ends_with_LF head);
        [now exists block | eexists; apply str_app_assoc]. }
    assert (Htb : exists rest, with_traceback = line ++ rest).
    { subst with_traceback. destruct (exc_text record) as [|c e].
      - exists "". now rewrite str_app_nil_r.
      - apply Hown. }
    assert (Hbody : exists rest, body = line ++ rest).
    { subst body. destruct Htb as [r1 ->].
      destruct (stack_info record) as [|d t]; [now exists r1|].
      destruct (Hown (line ++ r1) (String d t)) as [r2 ->].
      exists (r1 ++ r2). apply str_app_assoc. }
    destruct Hbody as [rest ->].
    rewrite (str_app_assoc line rest reset), <- (str_app_assoc colour line).
    apply prefix_app.
  - intros Hexc Hstack.
    assert (Hbody : body = line)
      by (subst body with_traceback; now rewrite Hexc, Hstack).
    split; [now rewrite <- Hbody|].
    intros Hpath Hmessage.
    assert (Hlevel : single_line (logging.getLevelName (severity_level s)) = true)
      by now destruct s.
    assert (Hcol : single_line colour = true) by (subst colour; now destruct s).
    subst line. repeat rewrite single_line_app.
    rewrite Hcol, Hlevel, Hpath, Hmessage, single_line_formatTime,
      single_line_decimal.
    reflexivity.
Qed.

Lemma format_layout_witness :
  Formatter.format
    {| name := "application"; levelno := logging.INFO; levelname := "INFO";
       pathname := "~/main.py"; lineno := 0; msg := "";
       args := NoArgs; created := mk_datetime 2021 8 29 17 5 32 0;
       exc_text := ""; stack_info := "" |}
  = Some (LogLevelColors.ESC ++ "[92m"
          ++ "[2021-08-29 17:05:32,000] | ~/main.py:0 | INFO | "
          ++ LogLevelColors.ESC ++ "[0m")
  /\ Formatter.format
       {| name := "application"; levelno := logging.ERROR;
          levelname := "ERROR";
          pathname := "~/main.py"; lineno := 7; msg := "%d items lost";
          args := FitArgs "3 items lost";
          created := mk_datetime 2021 8 29 17 5 32 0;
          exc_text := "Traceback (most recent call last):";
          stack_info := "Stack (most recent call last):" |}
     = Some (LogLevelColors.ESC ++ "[33m"
             ++ "[2021-08-29 17:05:32,000] | ~/main.py:7 | ERROR | 3 items lost"
             ++ String Formatter.LF "Traceback (most recent call last):"
             ++ String Formatter.LF "Stack (most recent call last):"
             ++ LogLevelColors.ESC ++ "[0m").
Proof.
  split.
  - refine (proj1 (format_layout _ SInfo "" _ _)); reflexivity.
  - refine (proj1 (format_layout _ SError "3 items lost" _ _)); reflexivity.
Defined.

(** ** The rotating file handler *)

Ltac run_io :=
  unfold FileHandler.emit, FileHandler.get_last_entry, FileHandler.close,
    FileHandler.super_emit, FileHandler._open, FileHandler.init,
    logging.StreamHandler_emit, mkdir, open, stream_write, stream_flush,
    stream_close, emit_event, today, getcwd, bind, ret in *;
  simpl in *.

Ltac flatten_trace := repeat rewrite <- List.app_assoc; simpl.

Section Emit.

Variables (h : FileHandler.t) (record : LogRecord) (w : World).

(** The recorded date the check reads, and the two clock readings of
    [emit]: the one of the check and the one stored on rotation. *)
Let last := default (cls_last_entry w) (FileHandler._last_entry h).
Let now := clock w (ticks w).
Let now' := clock w (S (ticks w)).
Let path' :=
  abspath (cwd w) (FileHandler.filename (FileHandler.folder h) now'
                     (FileHandler.ext h)).

(** The handler [emit] leaves behind. *)
Lemma emit_handler p :
  FileHandler.stream h = Some p ->
  fst (FileHandler.emit h record w)
  = if bool_decide (date last <> date now)
    then {| FileHandler.folder := FileHandler.folder h;
            FileHandler.ext := FileHandler.ext h;
            FileHandler.baseFilename :=
              FileHandler.filename (FileHandler.folder h) now'
                (FileHandler.ext h);
            FileHandler.mode := FileHandler.mode h;
            FileHandler.stream := Some path';
            FileHandler._closed := true;
            FileHandler._last_entry := Some now';
            FileHandler.filters := FileHandler.filters h |}
    else h.
Proof.
  intros Hs. subst last now now' path'. destruct h; simpl in *; subst.
  run_io. case_bool_decide; simpl; destruct (Formatter.format record);
    reflexivity.
Qed.

(** What a write on an unchanged day does. *)
Lemma emit_same_day p text :
  FileHandler.stream h = Some p ->
  Formatter.format record = Some text ->
  date last = date now ->
  trace (snd (FileHandler.emit h record w))
  = (trace w ++ [EvWrite (FileStream p) (text ++ String Formatter.LF "");
                 EvFlush (FileStream p)])%list
  /\ files (snd (FileHandler.emit h record w))
     = <[p := default "" (files w !! p) ++ text ++ String Formatter.LF ""]>
         (files w)
  /\ ticks (snd (FileHandler.emit h record w)) = S (ticks w)
  /\ dirs (snd (FileHandler.emit h record w)) = dirs w.
Proof.
  intros Hs Hf Hd. subst last now now' path'.
  destruct h; simpl in *; subst. run_io.
  rewrite bool_decide_eq_false_2 by auto. simpl. rewrite Hf. simpl.
  flatten_trace. auto.
Qed.

(** What a write on a changed day does. *)
Lemma emit_new_day p text :
  FileHandler.stream h = Some p ->
  Formatter.format record = Some text ->
  date last <> date now ->
  trace (snd (FileHandler.emit h record w))
  = (trace w ++ [EvSetLastEntry now'; EvFlush (FileStream p); EvClose p;
                 EvOpen path' (FileHandler.mode h);
                 EvWrite (FileStream path') (text ++ String Formatter.LF "");
                 EvFlush (FileStream path')])%list
  /\ files (snd (FileHandler.emit h record w)) !! path'
     = Some (opened_text (FileHandler.mode h) (files w !! path')
               ++ text ++ String Formatter.LF "")
  /\ ticks (snd (FileHandler.emit h record w)) = S (S (ticks w))
  /\ dirs (snd (FileHandler.emit h record w)) = dirs w.
Proof.
  intros Hs Hf Hd. subst last now now' path'.
  destruct h; simpl in *; subst. run_io.
  rewrite bool_decide_eq_true_2 by auto. simpl. rewrite Hf. simpl.
  flatten_trace. rewrite !lookup_insert_eq. auto.
Qed.

(** The events of a rotation, whatever the formatter does. *)
Lemma emit_new_day_events p :
  FileHandler.stream h = Some p ->
  date last <> date now ->
  exists rest,
    trace (snd (FileHandler.emit h record w))
    = (trace w ++ [EvSetLastEntry now'; EvFlush (FileStream p); EvClose p;
                   EvOpen path' (FileHandler.mode h)] ++ rest)%list
    /\ count is_open rest = 0.
Proof.
  intros Hs Hd. subst last now now' path'.
  destruct h; simpl in *; subst. run_io.
  rewrite bool_decide_eq_true_2 by auto. simpl.
  destruct (Formatter.format record); simpl; flatten_trace.
  - eexists. split; reflexivity.
  - exists []. split; reflexivity.
Qed.

Lemma emit_same_day_events p :
  FileHandler.stream h = Some p ->
  date last = date now ->
  exists rest,
    trace (snd (FileHandler.emit h record w)) = (trace w ++ rest)%list
    /\ count is_open rest = 0 /\ count is_close rest = 0
    /\ count is_set_last_entry rest = 0.
Proof.
  intros Hs Hd. subst last now now' path'.
  destruct h; simpl in *; subst. run_io.
  rewrite bool_decide_eq_false_2 by auto. simpl.
  destruct (Formatter.format record); simpl; flatten_trace.
  - eexists. repeat split; reflexivity.
  - exists []. rewrite List.app_nil_r. repeat split; reflexivity.
Qed.

End Emit.

(** Every handler built by the module is in append mode and holds an open
    stream. *)
Lemma FileHandler_built_open h :
  FileHandler_built h ->
  FileHandler.mode h = "a" /\ exists p, FileHandler.stream h = Some p.
Proof.
  induction 1 as [ext folder w | f h _ IH | h record w _ [Hm [p Hs]]].
  - split; [reflexivity | eexists; reflexivity].
  - exact IH.
  - rewrite (emit_handler _ _ _ _ Hs). case_bool_decide; simpl; eauto.
Qed.

(** C1, as the specification words it, does not hold: the recorded date is
    updated first, before the old handle is closed, and the name of the new
    file is computed from it.  A sink built on 2024-01-01 and written to on
    2024-01-02 updates the date at step 0, closes at step 2, opens at step 3
    and writes at step 4. *)
Lemma rotation_order_counterexample :
  let w0 := sample_world [day1; day2; day2] in
  let h := fst (FileHandler.init "svc" "logs" w0) in
  let w1 := snd (FileHandler.init "svc" "logs" w0) in
  let steps :=
    drop (List.length (trace w1))
         (trace (snd (FileHandler.emit h sample_record w1))) in
  date (default (cls_last_entry w1) (FileHandler._last_entry h))
    <> date (clock w1 (ticks w1))
  /\ first_index is_set_last_entry steps = Some 0
  /\ first_index is_close steps = Some 2
  /\ first_index is_open steps = Some 3
  /\ first_index is_write steps = Some 4
  /\ ~ (exists a b c d,
          first_index is_close steps = Some a
          /\ first_index is_open steps = Some b
          /\ first_index is_set_last_entry steps = Some c
          /\ first_index is_write steps = Some d
          /\ a < b /\ b < c /\ c < d).
Proof.
  cbv zeta. split; [vm_compute; congruence|].
  repeat (split; [vm_compute; reflexivity|]).
  intros (a & b & c & d & Ha & Hb & Hc & Hd & Hab & Hbc & Hcd).
  vm_compute in Hb, Hc. injection Hb as <-. injection Hc as <-. lia.
Qed.

(** C1, amended: a write to a sink in state Open whose recorded date
    differs from [today()] performs, in this order: update the recorded
    date to [today()], flush and close the current handle, open the file of
    the newly recorded date in append mode, append the line to the newly
    opened handle (and flush it); at no instant are two file handles open. *)
Theorem rotation_sequence (h : FileHandler.t) (record : LogRecord) (w : World)
    (p text : string) :
  FileHandler_built h ->
  FileHandler.stream h = Some p ->
  Formatter.format record = Some text ->
  date (default (cls_last_entry w) (FileHandler._last_entry h))
    <> date (clock w (ticks w)) ->
  let today2 := clock w (S (ticks w)) in
  let path' :=
    abspath (cwd w)
      (FileHandler.filename (FileHandler.folder h) today2 (FileHandler.ext h)) in
  let steps :=
    [EvSetLastEntry today2; EvFlush (FileStream p); EvClose p;
     EvOpen path' "a";
     EvWrite (FileStream path') (text ++ String Formatter.LF "");
     EvFlush (FileStream path')] in
  trace (snd (FileHandler.emit h record w)) = (trace w ++ steps)%list
  /\ FileHandler._last_entry (fst (FileHandler.emit h record w)) = Some today2
  /\ FileHandler.stream (fst (FileHandler.emit h record w)) = Some path'
  /\ max_open_handles 1 steps = 1.
Proof.
  intros Hb Hs Hf Hd today2 path' steps.
  destruct (FileHandler_built_open h Hb) as [Hm _].
  destruct (emit_new_day h record w p text Hs Hf Hd) as (Ht & _).
  rewrite (emit_handler h record w p Hs), bool_decide_eq_true_2 by exact Hd.
  subst steps path' today2. rewrite Ht, Hm. auto.
Qed.

Lemma rotation_sequence_witness :
  let w0 := sample_world [day1; day2; day2] in
  let h := fst (FileHandler.init "svc" "logs" w0) in
  let w1 := snd (FileHandler.init "svc" "logs" w0) in
  FileHandler._last_entry (fst (FileHandler.emit h sample_record w1)) = Some day2
  /\ FileHandler.stream (fst (FileHandler.emit h sample_record w1))
     = Some "/srv/app/logs/2024-01-02-svc.log".
Proof.
  cbv zeta.
  assert (Hd : date (default
             (cls_last_entry
                (snd (FileHandler.init "svc" "logs" (sample_world [day1; day2; day2]))))
             (FileHandler._last_entry
                (fst (FileHandler.init "svc" "logs" (sample_world [day1; day2; day2])))))
           <> date (clock
                (snd (FileHandler.init "svc" "logs" (sample_world [day1; day2; day2])))
                (ticks
                   (snd (FileHandler.init "svc" "logs"
                           (sample_world [day1; day2; day2]))))))
    by (vm_compute; congruence).
  destruct (rotation_sequence
              (fst (FileHandler.init "svc" "logs" (sample_world [day1; day2; day2])))
              sample_record
              (snd (FileHandler.init "svc" "logs" (sample_world [day1; day2; day2])))
              "/srv/app/logs/2024-01-01-svc.log" _
              (fh_init _ _ _) eq_refl eq_refl Hd) as (_ & H1 & H2 & _).
  split; [exact H1 | exact H2].
Defined.

(** C2: a write to a sink in state Open rotates if and only if the
    calendar date of [today()] differs from the recorded date.  On an equal
    date the sink is left as it is and the line is appended to the current
    file; on any other date, earlier or later, the sink rotates; [emit]
    returns in both cases. *)
Theorem rotation_iff_date_differs (h : FileHandler.t) (record : LogRecord)
    (w : World) (p : string) :
  FileHandler.stream h = Some p ->
  let last := default (cls_last_entry w) (FileHandler._last_entry h) in
  let now := clock w (ticks w) in
  let today2 := clock w (S (ticks w)) in
  let path' :=
    abspath (cwd w)
      (FileHandler.filename (FileHandler.folder h) today2 (FileHandler.ext h)) in
  let h' := fst (FileHandler.emit h record w) in
  let w' := snd (FileHandler.emit h record w) in
  let steps := drop (List.length (trace w)) (trace w') in
  (0 < count is_close steps <-> date last <> date now)
  /\ (0 < count is_open steps <-> date last <> date now)
  /\ (date last = date now ->
      h' = h
      /\ forall text, Formatter.format record = Some text ->
           steps = [EvWrite (FileStream p) (text ++ String Formatter.LF "");
                    EvFlush (FileStream p)]
           /\ files w' !! p
              = Some (default "" (files w !! p) ++ text ++ String Formatter.LF ""))
  /\ (date last <> date now ->
      FileHandler._last_entry h' = Some today2
      /\ FileHandler.stream h' = Some path'
      /\ exists rest,
           steps = ([EvSetLastEntry today2; EvFlush (FileStream p); EvClose p;
                     EvOpen path' (FileHandler.mode h)] ++ rest)%list).
Proof.
  intros Hs last now today2 path' h' w' steps.
  assert (Hsame : date last = date now ->
            count is_close steps = 0 /\ count is_open steps = 0).
  { intros Hd.
    destruct (emit_same_day_events h record w p Hs Hd) as (rest & Ht & Ho & Hc & _).
    subst steps w'. rewrite Ht, drop_app_length. auto. }
  assert (Hnew : date last <> date now ->
            exists rest,
              steps = ([EvSetLastEntry today2; EvFlush (FileStream p); EvClose p;
                        EvOpen path' (FileHandler.mode h)] ++ rest)%list).
  { intros Hd.
    destruct (emit_new_day_events h record w p Hs Hd) as (rest & Ht & _).
    exists rest. subst steps w'. now rewrite Ht, drop_app_length. }
  split; [|split; [|split]].
  - split.
    + intros Hpos Hd. destruct (Hsame Hd) as [Hc _]. lia.
    + intros Hd. destruct (Hnew Hd) as (rest & ->). unfold count. simpl. lia.
  - split.
    + intros Hpos Hd. destruct (Hsame Hd) as [_ Ho]. lia.
    + intros Hd. destruct (Hnew Hd) as (rest & ->). unfold count. simpl. lia.
  - intros Hd. split.
    + subst h'. rewrite (emit_handler h record w p Hs).
      now rewrite bool_decide_eq_false_2 by auto.
    + intros text Hf.
      destruct (emit_same_day h record w p text Hs Hf Hd) as (Ht & Hfl & _).
      subst steps w'. rewrite Ht, Hfl, drop_app_length, lookup_insert_eq. auto.
  - intros Hd. subst h'. rewrite (emit_handler h record w p Hs).
    rewrite bool_decide_eq_true_2 by auto. simpl. auto.
Qed.

Lemma rotation_iff_date_differs_witness :
  let w0 := sample_world [day2; day1; day1] in
  let h := fst (FileHandler.init "svc" "logs" w0) in
  let w1 := snd (FileHandler.init "svc" "logs" w0) in
  0 < count is_open
        (drop (List.length (trace w1))
              (trace (snd (FileHandler.emit h sample_record w1))))
  <-> date (default (cls_last_entry w1) (FileHandler._last_entry h))
      <> date (clock w1 (ticks w1)).
Proof.
  cbv zeta.
  refine (proj1 (proj2 (rotation_iff_date_differs
            (fst (FileHandler.init "svc" "logs" (sample_world [day2; day1; day1])))
            sample_record
            (snd (FileHandler.init "svc" "logs" (sample_world [day2; day1; day1])))
            "/srv/app/logs/2024-01-02-svc.log" _))).
  reflexivity.
Defined.

(** ** The log file *)

Lemma strftime_Ymd_date t t' : date t = date t' -> strftime_Ymd t = strftime_Ymd t'.
Proof. unfold date, strftime_Ymd. now intros [= -> -> ->]. Qed.

(** What the constructor of the file handler does. *)
Lemma init_spec ext folder w :
  let h := fst (FileHandler.init ext folder w) in
  let w' := snd (FileHandler.init ext folder w) in
  let base :=
    abspath (cwd w) (FileHandler.filename folder (clock w (ticks w)) ext) in
  let path := abspath (cwd w) base in
  h = {| FileHandler.folder := folder; FileHandler.ext := ext;
         FileHandler.baseFilename := base; FileHandler.mode := "a";
         FileHandler.stream := Some path; FileHandler._closed := false;
         FileHandler._last_entry := None; FileHandler.filters := [] |}
  /\ trace w' = (trace w ++ [EvMkdir (abspath (cwd w) folder); EvOpen path "a"])%list
  /\ files w' = <[path := default "" (files w !! path)]> (files w)
  /\ dirs w' = {[abspath (cwd w) folder]} ∪ dirs w
  /\ ticks w' = S (ticks w)
  /\ cwd w' = cwd w /\ clock w' = clock w
  /\ cls_last_entry w' = cls_last_entry w.
Proof. run_io. flatten_trace. repeat split. Qed.

(** C7, as the specification words it, does not hold: the file opened by
    the constructor is named after [today()], not after the date the sink
    records, which is the class attribute until the first rotation.  With
    the class defined on 2024-01-01, a sink built on 2024-01-02 and written
    to after the clock was set back to 2024-01-01 appends to the file of
    2024-01-02 while it records 2024-01-01. *)
Lemma log_file_date_counterexample :
  let w1 := snd (import_module (sample_world [day1; day2; day1])) in
  let h := fst (FileHandler.init "svc" "logs" w1) in
  let w2 := snd (FileHandler.init "svc" "logs" w1) in
  let h' := fst (FileHandler.emit h sample_record w2) in
  let w3 := snd (FileHandler.emit h sample_record w2) in
  FileHandler.stream h = Some "/srv/app/logs/2024-01-02-svc.log"
  /\ strftime_Ymd (default (cls_last_entry w2) (FileHandler._last_entry h))
     = "2024-01-01"
  /\ FileHandler.stream h' = Some "/srv/app/logs/2024-01-02-svc.log"
  /\ count (is_write_to (FileStream "/srv/app/logs/2024-01-02-svc.log"))
           (trace w3) = 1
  /\ count is_write (trace w3) = 1
  /\ strftime_Ymd (default (cls_last_entry w3) (FileHandler._last_entry h'))
     = "2024-01-01".
Proof. cbv zeta. repeat split; vm_compute; reflexivity. Qed.

(** C7, amended: the file sink opens [<folder>/<YYYY-MM-DD>-<ext>.log],
    [ext] being the logger's name, where the date is that of [today()] when
    the constructor runs and the newly recorded date on every rotation
    reopen.  A write that rotates goes to the file of the recorded date, a
    write that does not rotate goes to the file already open.  The file is
    opened in append mode at construction and on every rotation, and the
    text an existing file holds is kept. *)
Theorem log_file_path :
  (forall ext folder w,
     let h := fst (FileHandler.init ext folder w) in
     let w' := snd (FileHandler.init ext folder w) in
     let name :=
       folder ++ "/" ++ strftime_Ymd (clock w (ticks w)) ++ "-" ++ ext ++ ".log" in
     FileHandler.baseFilename h = abspath (cwd w) name
     /\ FileHandler.stream h = Some (abspath (cwd w) (FileHandler.baseFilename h))
     /\ drop (List.length (trace w)) (trace w')
        = [EvMkdir (abspath (cwd w) folder);
           EvOpen (abspath (cwd w) (FileHandler.baseFilename h)) "a"]
     /\ files w' !! abspath (cwd w) (FileHandler.baseFilename h)
        = Some (default ""
                  (files w !! abspath (cwd w) (FileHandler.baseFilename h))))
  /\ (forall h record w p,
        FileHandler_built h ->
        FileHandler.stream h = Some p ->
        date (default (cls_last_entry w) (FileHandler._last_entry h))
          <> date (clock w (ticks w)) ->
        let h' := fst (FileHandler.emit h record w) in
        let w' := snd (FileHandler.emit h record w) in
        exists recorded rest,
          let name :=
            FileHandler.folder h ++ "/" ++ strftime_Ymd recorded ++ "-"
              ++ FileHandler.ext h ++ ".log" in
          FileHandler._last_entry h' = Some recorded
          /\ FileHandler.baseFilename h' = name
          /\ FileHandler.stream h' = Some (abspath (cwd w) name)
          /\ FileHandler.folder h' = FileHandler.folder h
          /\ FileHandler.ext h' = FileHandler.ext h
          /\ drop (List.length (trace w)) (trace w')
             = ([EvSetLastEntry recorded; EvFlush (FileStream p); EvClose p;
                 EvOpen (abspath (cwd w) name) "a"] ++ rest)%list
          /\ count is_open rest = 0
          /\ forall text,
               Formatter.format record = Some text ->
               rest = [EvWrite (FileStream (abspath (cwd w) name))
                         (text ++ String Formatter.LF "");
                       EvFlush (FileStream (abspath (cwd w) name))]
               /\ files w' !! abspath (cwd w) name
                  = Some (default "" (files w !! abspath (cwd w) name)
                            ++ text ++ String Formatter.LF ""))
  /\ (forall h record w p text,
        FileHandler.stream h = Some p ->
        Formatter.format record = Some text ->
        date (default (cls_last_entry w) (FileHandler._last_entry h))
          = date (clock w (ticks w)) ->
        fst (FileHandler.emit h record w) = h
        /\ drop (List.length (trace w)) (trace (snd (FileHandler.emit h record w)))
           = [EvWrite (FileStream p) (text ++ String Formatter.LF "");
              EvFlush (FileStream p)]
        /\ files (snd (FileHandler.emit h record w)) !! p
           = Some (default "" (files w !! p) ++ text ++ String Formatter.LF ""))
  /\ (forall kw w lg w' fh,
        Logger.init kw w = Logger.Ok (lg, w') ->
        Logger._file_handler lg = Some fh ->
        FileHandler.ext fh = Logger.name lg /\ FileHandler.folder fh = "logs").
Proof.
  split; [|split; [|split]].
  - intros ext folder w h w' name.
    destruct (init_spec ext folder w) as (Hh & Ht & Hf & _).
    subst h w'. rewrite Hh, Ht, Hf, drop_app_length. simpl.
    rewrite lookup_insert_eq. repeat split.
  - intros h record w p Hb Hs Hd h' w'.
    destruct (FileHandler_built_open h Hb) as [Hm _].
    destruct (emit_new_day_events h record w p Hs Hd) as (rest & Ht & Ho).
    exists (clock w (S (ticks w))), rest. cbv zeta.
    subst h' w'. rewrite (emit_handler h record w p Hs).
    rewrite bool_decide_eq_true_2 by exact Hd. simpl.
    rewrite Ht, drop_app_length, Hm.
    do 7 (split; [trivial|]). intros text Hfmt.
    destruct (emit_new_day h record w p text Hs Hfmt Hd) as (Ht' & Hf & _).
    rewrite Ht' in Ht. apply app_inv_head in Ht. rewrite Hm in Ht, Hf.
    split; [now injection Ht as <- | exact Hf].
  - intros h record w p text Hs Hf Hd.
    destruct (emit_same_day h record w p text Hs Hf Hd) as (Ht & Hfl & _).
    rewrite (emit_handler h record w p Hs), bool_decide_eq_false_2 by auto.
    rewrite Ht, Hfl, drop_app_length, lookup_insert_eq. auto.
  - intros kw w lg w' fh Hinit Hfh. unfold Logger.init in Hinit.
    destruct (Logger.kw_other kw); [|discriminate].
    destruct (Logger.kw_name kw) as [n|]; [|discriminate].
    destruct (default false (Logger.kw_file_logging kw)).
    + destruct (FileHandler.init n "logs" w) as [fh0 w0] eqn:E.
      injection Hinit as <- <-. simpl in Hfh. injection Hfh as <-.
      pose proof (init_spec n "logs" w) as (Hh & _).
      rewrite E in Hh. simpl in Hh. subst fh0. auto.
    + injection Hinit as <- <-. discriminate.
Qed.

Lemma log_file_path_witness :
  let w0 := sample_world [day1; day2; day2] in
  let h := fst (FileHandler.init "svc" "logs" w0) in
  let w1 := snd (FileHandler.init "svc" "logs" w0) in
  FileHandler.baseFilename h = "/srv/app/logs/2024-01-01-svc.log"
  /\ exists recorded rest,
       FileHandler.baseFilename (fst (FileHandler.emit h sample_record w1))
       = "logs" ++ "/" ++ strftime_Ymd recorded ++ "-" ++ "svc" ++ ".log"
       /\ drop (List.length (trace w1))
               (trace (snd (FileHandler.emit h sample_record w1)))
          = ([EvSetLastEntry recorded;
              EvFlush (FileStream "/srv/app/logs/2024-01-01-svc.log");
              EvClose "/srv/app/logs/2024-01-01-svc.log";
              EvOpen (abspath "/srv/app"
                        ("logs" ++ "/" ++ strftime_Ymd recorded ++ "-" ++ "svc"
                           ++ ".log")) "a"] ++ rest)%list.
Proof.
  cbv zeta. destruct log_file_path as (Hinit & Hrot & _). split.
  - exact (proj1 (Hinit "svc" "logs" (sample_world [day1; day2; day2]))).
  - assert (Hd : date (default
             (cls_last_entry
                (snd (FileHandler.init "svc" "logs" (sample_world [day1; day2; day2]))))
             (FileHandler._last_entry
                (fst (FileHandler.init "svc" "logs" (sample_world [day1; day2; day2])))))
           <> date (clock
                (snd (FileHandler.init "svc" "logs" (sample_world [day1; day2; day2])))
                (ticks
                   (snd (FileHandler.init "svc" "logs"
                           (sample_world [day1; day2; day2]))))))
      by (vm_compute; congruence).
    destruct (Hrot (fst (FileHandler.init "svc" "logs" (sample_world [day1; day2; day2])))
                sample_record
                (snd (FileHandler.init "svc" "logs" (sample_world [day1; day2; day2])))
                "/srv/app/logs/2024-01-01-svc.log"
                (fh_init _ _ _) eq_refl Hd)
      as (recorded & rest & _ & Hbase & _ & _ & _ & Hsteps & _).
    exists recorded, rest. split; [exact Hbase | exact Hsteps].
Defined.

(** ** The class attribute [_last_entry] *)

Lemma abspath_absolute d path :
  String.prefix "/" d = true -> abspath d (abspath d path) = abspath d path.
Proof.
  intros Hd. unfold abspath at 2 3.
  destruct (String.prefix "/" path) eqn:Hp.
  - unfold abspath. now rewrite Hp.
  - unfold abspath.
    destruct d as [|c d]; [discriminate|].
    rewrite app_cons. apply prefix_cons_inv in Hd as [<- _]. simpl.
    now destruct (d ++ "/" ++ path).
Qed.

(** [emit] assigns [_last_entry] on the instance; the class attribute is
    left alone. *)
Lemma emit_keeps_class_attribute h record w :
  cls_last_entry (snd (FileHandler.emit h record w)) = cls_last_entry w.
Proof.
  destruct h as [fo ex ba mo [p|] cl le fi]; run_io;
    case_bool_decide; simpl;
    repeat (match goal with
            | |- context [if ?b then _ else _] => destruct b
            | |- context [match Formatter.format ?r with _ => _ end] =>
                destruct (Formatter.format r)
            end; simpl); reflexivity.
Qed.

(** C9: the rotation trigger [_last_entry] is a class attribute, set once
    when the class statement runs; the constructor does not set it on the
    instance, so that every sink reads the class attribute until its own
    first rotation, which stores the attribute on that instance and leaves
    the class attribute as it is.  Hence a sink built on another day than
    the class was defined rotates on its very first write, although the file
    it closes and the one it opens carry the same date, that of today. *)
Theorem class_level_last_entry :
  (forall w, cls_last_entry (snd (import_module w)) = clock w (ticks w))
  /\ (forall ext folder w,
        FileHandler._last_entry (fst (FileHandler.init ext folder w)) = None
        /\ cls_last_entry (snd (FileHandler.init ext folder w)) = cls_last_entry w)
  /\ (forall h w,
        FileHandler._last_entry h = None ->
        fst (FileHandler.get_last_entry h w) = cls_last_entry w)
  /\ (forall h record w p,
        FileHandler.stream h = Some p ->
        cls_last_entry (snd (FileHandler.emit h record w)) = cls_last_entry w
        /\ (date (default (cls_last_entry w) (FileHandler._last_entry h))
              = date (clock w (ticks w)) ->
            FileHandler._last_entry (fst (FileHandler.emit h record w))
            = FileHandler._last_entry h)
        /\ (date (default (cls_last_entry w) (FileHandler._last_entry h))
              <> date (clock w (ticks w)) ->
            FileHandler._last_entry (fst (FileHandler.emit h record w))
            = Some (clock w (S (ticks w)))))
  /\ (forall ext folder w record,
        let built := clock w (ticks w) in
        let h := fst (FileHandler.init ext folder w) in
        let w1 := snd (FileHandler.init ext folder w) in
        date (cls_last_entry w) <> date built ->
        date (clock w1 (ticks w1)) = date built ->
        date (clock w1 (S (ticks w1))) = date built ->
        exists p rest,
          FileHandler.stream h = Some p
          /\ drop (List.length (trace w1))
                  (trace (snd (FileHandler.emit h record w1)))
             = ([EvSetLastEntry (clock w1 (S (ticks w1)));
                 EvFlush (FileStream p); EvClose p;
                 EvOpen (abspath (cwd w)
                           (FileHandler.filename folder built ext)) "a"]
                  ++ rest)%list
          /\ (String.prefix "/" (cwd w) = true ->
              p = abspath (cwd w) (FileHandler.filename folder built ext))).
Proof.
  split; [reflexivity|]. split; [intros; split; reflexivity|].
  split.
  { intros h w Hnone. unfold FileHandler.get_last_entry. simpl.
    now rewrite Hnone. }
  split.
  - intros h record w p Hs. split; [apply emit_keeps_class_attribute|].
    rewrite (emit_handler h record w p Hs).
    split; intros Hd.
    + now rewrite bool_decide_eq_false_2 by auto.
    + now rewrite bool_decide_eq_true_2 by auto.
  - intros ext folder w record. cbv zeta.
    pose proof (init_spec ext folder w) as Hinit. cbv zeta in Hinit.
    destruct (FileHandler.init ext folder w) as [h w1]. simpl in *.
    destruct Hinit as (-> & _ & _ & _ & Hticks & Hcwd & Hclock & Hattr).
    intros Hcls Hnow Hnow'.
    set (built := clock w (ticks w)) in *.
    set (p := abspath (cwd w)
                (abspath (cwd w) (FileHandler.filename folder built ext))).
    set (h := FileHandler.mk folder ext _ "a" (Some p) false None []).
    assert (Hs : FileHandler.stream h = Some p) by reflexivity.
    assert (Hd : date (default (cls_last_entry w1) (FileHandler._last_entry h))
                 <> date (clock w1 (ticks w1))).
    { rewrite Hnow, Hattr. exact Hcls. }
    destruct (emit_new_day_events h record w1 p Hs Hd) as (rest & Ht & _).
    exists p, rest. split; [reflexivity|]. split.
    + rewrite Ht, drop_app_length, Hcwd. simpl.
      unfold FileHandler.filename.
      now rewrite (strftime_Ymd_date _ _ Hnow').
    + intros Habs. subst p. now apply abspath_absolute.
Qed.

Lemma class_level_last_entry_witness :
  let w := snd (import_module (sample_world [day1; day2; day2; day2])) in
  let h := fst (FileHandler.init "svc" "logs" w) in
  let w1 := snd (FileHandler.init "svc" "logs" w) in
  exists p rest,
    FileHandler.stream h = Some p
    /\ drop (List.length (trace w1))
            (trace (snd (FileHandler.emit h sample_record w1)))
       = ([EvSetLastEntry (clock w1 (S (ticks w1)));
           EvFlush (FileStream p); EvClose p;
           EvOpen (abspath (cwd w)
                     (FileHandler.filename "logs" (clock w (ticks w)) "svc")) "a"]
            ++ rest)%list
    /\ (String.prefix "/" (cwd w) = true ->
        p = abspath (cwd w) (FileHandler.filename "logs" (clock w (ticks w)) "svc")).
Proof.
  cbv zeta. destruct class_level_last_entry as (_ & _ & _ & _ & H).
  apply (H "svc" "logs"
           (snd (import_module (sample_world [day1; day2; day2; day2])))
           sample_record).
  - vm_compute. congruence.
  - reflexivity.
  - reflexivity.
Defined.

(** ** The logger *)

Ltac run_logger :=
  unfold Logger.log, Logger._log, Logger.callHandlers,
    logging.StreamHandler_handle, logging.Filterer_filter, FileHandler.handle,
    logging.StreamHandler_emit, stream_write, stream_flush, emit_event,
    today, getcwd, bind, ret in *;
  simpl in *.

Lemma init_inv kw w lg w' :
  Logger.init kw w = Logger.Ok (lg, w') -> Logger_inv lg.
Proof.
  unfold Logger.init. intros Hinit.
  destruct (Logger.kw_other kw); [|discriminate].
  destruct (Logger.kw_name kw) as [n|]; [|discriminate].
  destruct (default false (Logger.kw_file_logging kw)).
  - destruct (FileHandler.init n "logs" w) as [fh0 w0] eqn:E.
    injection Hinit as <- <-.
    pose proof (init_spec n "logs" w) as (Hh & _).
    rewrite E in Hh. simpl in Hh. subst fh0.
    split; [reflexivity|]. intros fh [= <-]. simpl. eauto.
  - injection Hinit as <- <-. split; [reflexivity | discriminate].
Qed.

Lemma log_inv lvl message fn lno lg w :
  Logger_inv lg -> Logger_inv (fst (Logger.log lvl message fn lno lg w)).
Proof.
  intros [Hf Hfh]. unfold Logger.log.
  destruct (Logger.isEnabledFor lg lvl); [|now split].
  unfold Logger._log, Logger.callHandlers, logging.StreamHandler_handle,
    logging.Filterer_filter, FileHandler.handle.
  rewrite Hf.
  destruct (Logger._file_handler lg) as [fh|] eqn:Efh.
  - destruct (Hfh fh eq_refl) as (Hm & [p Hs] & Hff). rewrite Hff.
    unfold today, getcwd, emit_event, bind, ret. simpl.
    match goal with
    | |- context [logging.StreamHandler_emit ?s ?r ?w] =>
        destruct (logging.StreamHandler_emit s r w) as [[] w1]
    end.
    simpl.
    match goal with
    | |- context [FileHandler.emit fh ?r ?w] =>
        pose proof (emit_handler fh r w p Hs) as He;
        destruct (FileHandler.emit fh r w) as [fh' w3]
    end.
    simpl in *. split; [exact Hf|]. intros fh0 [= <-]. rewrite He.
    case_bool_decide; simpl; eauto.
  - unfold today, getcwd, emit_event, bind, ret. simpl.
    match goal with
    | |- context [logging.StreamHandler_emit ?s ?r ?w] =>
        destruct (logging.StreamHandler_emit s r w) as [[] w1]
    end.
    simpl. split; [exact Hf|]. rewrite Efh. discriminate.
Qed.

Lemma Logger_built_inv lg : Logger_built lg -> Logger_inv lg.
Proof.
  induction 1 as [kw w lg w' Hinit | lvl message fn lno lg w _ IH].
  - eapply init_inv, Hinit.
  - apply log_inv, IH.
Qed.

(** The five methods are enabled from the logger's level upwards. *)
Lemma isEnabledFor_severity lg s :
  Logger.isEnabledFor lg (severity_level s)
  = bool_decide (Logger.level lg <= severity_level s)%Z.
Proof.
  unfold Logger.isEnabledFor, Logger.getEffectiveLevel, logging.manager_disable.
  replace (0 >=? severity_level s)%Z with false by now destruct s.
  destruct (Z.eqb_spec (Logger.level lg) 0) as [->|_].
  - now destruct s.
  - case_bool_decide; unfold Z.geb;
      destruct (severity_level s ?= Logger.level lg)%Z eqn:E; trivial;
      rewrite ?Z.compare_lt_iff, ?Z.compare_gt_iff, ?Z.compare_eq_iff in E; lia.
Qed.

(** An enabled log call: one record, one write on the console and one on
    the stream the file handler ends with. *)
Lemma log_enabled_steps lg lvl message fn lno w c :
  Logger_inv lg ->
  Logger.isEnabledFor lg lvl = true ->
  LogLevelColors.getitem (logging.getLevelName lvl) = Some c ->
  let lg' := fst (Logger.log lvl message fn lno lg w) in
  let w' := snd (Logger.log lvl message fn lno lg w) in
  let steps := drop (List.length (trace w)) (trace w') in
  count is_record steps = 1
  /\ count (is_write_to Stderr) steps = 1
  /\ match Logger._file_handler lg with
     | None => Logger._file_handler lg' = None /\ count is_write steps = 1
     | Some fh =>
         exists fh' p',
           Logger._file_handler lg' = Some fh'
           /\ FileHandler.stream fh' = Some p'
           /\ count (is_write_to (FileStream p')) steps = 1
           /\ count is_write steps = 2
     end.
Proof.
  intros [Hf Hfh] Hen Hc. cbv zeta.
  destruct (Logger.log lvl message fn lno lg w) as [lg' w'] eqn:E.
  unfold Logger.log in E. rewrite Hen in E.
  unfold Logger._log, Logger.callHandlers, logging.StreamHandler_handle,
    logging.Filterer_filter, FileHandler.handle in E.
  rewrite Hf in E.
  destruct (Logger._file_handler lg) as [fh|] eqn:Efh.
  - destruct (Hfh fh eq_refl) as (Hm & [p Hs] & Hff). rewrite Hff in E.
    unfold logging.StreamHandler_emit, stream_write, stream_flush, emit_event,
      today, getcwd, bind, ret in E. simpl in E.
    unfold Formatter.format in E at 1. simpl in E. rewrite Hc in E. simpl in E.
    match type of E with
    | context [FileHandler.emit fh ?r ?w] => set (r2 := r) in E; set (w2 := w) in E
    end.
    assert (Hfmt : exists text, Formatter.format r2 = Some text).
    { unfold Formatter.format. subst r2. simpl. rewrite Hc. eauto. }
    destruct Hfmt as [text Hfmt].
    pose proof (emit_handler fh r2 w2 p Hs) as He.
    destruct (decide (date (default (cls_last_entry w2) (FileHandler._last_entry fh))
                      = date (clock w2 (ticks w2)))) as [Hd|Hd].
    + destruct (emit_same_day fh r2 w2 p text Hs Hfmt Hd) as (Ht & _).
      rewrite bool_decide_eq_false_2 in He by auto.
      destruct (FileHandler.emit fh r2 w2) as [fh' w3].
      simpl in E, He, Ht. injection E as <- <-. simpl.
      rewrite Ht. subst w2. simpl. flatten_trace. rewrite drop_app_length.
      unfold count. simpl. split; [reflexivity|]. split; [reflexivity|].
      exists fh, p. subst fh'. rewrite String.eqb_refl. repeat split; trivial.
    + destruct (emit_new_day fh r2 w2 p text Hs Hfmt Hd) as (Ht & _).
      rewrite bool_decide_eq_true_2 in He by auto.
      destruct (FileHandler.emit fh r2 w2) as [fh' w3].
      simpl in E, He, Ht. injection E as <- <-. simpl.
      rewrite Ht. subst w2. simpl. flatten_trace. rewrite drop_app_length.
      unfold count. simpl. split; [reflexivity|]. split; [reflexivity|].
      eexists fh', _. subst fh'. simpl. rewrite String.eqb_refl.
      repeat split.
  - unfold logging.StreamHandler_emit, stream_write, stream_flush, emit_event,
      today, getcwd, bind, ret in E. simpl in E.
    unfold Formatter.format in E. simpl in E. rewrite Hc in E. simpl in E.
    injection E as <- <-. simpl.
    flatten_trace. rewrite drop_app_length. rewrite Efh. repeat split.
Qed.

Lemma log_method_level s : log_method s = Logger.log (severity_level s).
Proof. now destruct s. Qed.

(** C3: for every severity and message, the log method of the severity on
    a logger whose level is not above it makes exactly one write per active
    sink, one on the console and, when file logging was enabled, one on the
    file sink, for the one record it builds; on a logger whose level is
    above the severity it makes no write and builds no record: it leaves
    logger and environment as they were. *)
Theorem one_write_per_sink (lg : Logger.t) (s : Severity)
    (message fn : string) (lno : Z) (w : World) :
  Logger_built lg ->
  let lg' := fst (log_method s message fn lno lg w) in
  let w' := snd (log_method s message fn lno lg w) in
  let steps := drop (List.length (trace w)) (trace w') in
  ((Logger.level lg <= severity_level s)%Z ->
     count is_write steps = List.length (handlers lg)
     /\ count (is_write_to Stderr) steps = 1
     /\ (forall fh, Logger._file_handler lg = Some fh ->
           exists fh' p,
             Logger._file_handler lg' = Some fh'
             /\ FileHandler.stream fh' = Some p
             /\ count (is_write_to (FileStream p)) steps = 1)
     /\ (Logger._file_handler lg = None -> Logger._file_handler lg' = None)
     /\ count is_record steps = 1)
  /\ ((severity_level s < Logger.level lg)%Z ->
        lg' = lg /\ w' = w /\ steps = []
        /\ count is_write steps = 0 /\ count is_record steps = 0).
Proof.
  intros Hb. rewrite log_method_level. cbv zeta. split.
  - intros Hle.
    assert (Hen : Logger.isEnabledFor lg (severity_level s) = true).
    { rewrite isEnabledFor_severity. now apply bool_decide_eq_true_2. }
    assert (Hc : LogLevelColors.getitem (logging.getLevelName (severity_level s))
                 = Some (severity_colour s)) by now destruct s.
    destruct (log_enabled_steps lg (severity_level s) message fn lno w _
                (Logger_built_inv lg Hb) Hen Hc) as (Hrec & Herr & Hfile).
    unfold handlers.
    destruct (Logger._file_handler lg) as [fh|].
    + destruct Hfile as (fh' & p' & Hfh' & Hs' & Hone & Htwo).
      repeat split; trivial; [|discriminate].
      intros fh0 _. eauto.
    + destruct Hfile as (Hnone & Hone).
      repeat split; trivial. discriminate.
  - intros Hlt.
    assert (Hen : Logger.isEnabledFor lg (severity_level s) = false).
    { rewrite isEnabledFor_severity. apply bool_decide_eq_false_2. lia. }
    unfold Logger.log. rewrite Hen. simpl. rewrite drop_all. repeat split.
Qed.

Lemma one_write_per_sink_witness :
  let w0 := sample_world [day1; day1; day1; day1] in
  let lg :=
    match Logger.init (Logger.mk_kwargs (Some "svc") (Some logging.INFO)
                         (Some true) []) w0 with
    | Logger.Ok (lg, _) => lg
    | Logger.TypeError =>
        Logger.mk "" 0 (logging.mk_StreamHandler []) None
    end in
  let w1 := snd (FileHandler.init "svc" "logs" w0) in
  count is_write
        (drop (List.length (trace w1))
              (trace (snd (log_method SError "boom" "/srv/app/main.py" 7 lg w1))))
  = 2
  /\ snd (log_method SDebug "boom" "/srv/app/main.py" 7 lg w1) = w1.
Proof.
  cbv zeta.
  assert (Hb : Logger_built
            match Logger.init (Logger.mk_kwargs (Some "svc") (Some logging.INFO)
                                 (Some true) [])
                    (sample_world [day1; day1; day1; day1]) with
            | Logger.Ok (lg, _) => lg
            | Logger.TypeError =>
                Logger.mk "" 0 (logging.mk_StreamHandler []) None
            end).
  { eapply (lg_init (Logger.mk_kwargs (Some "svc") (Some logging.INFO) (Some true) [])
              (sample_world [day1; day1; day1; day1])).
    reflexivity. }
  split.
  - refine (proj1 (proj1 (one_write_per_sink _ SError "boom" "/srv/app/main.py" 7
                            _ Hb) _)).
    vm_compute. discriminate.
  - refine (proj1 (proj2 (proj2 (one_write_per_sink _ SDebug "boom"
                                   "/srv/app/main.py" 7 _ Hb) _))).
    reflexivity.
Defined.

(** C8, as the specification words it, does not hold: the constructor of
    the logger has no [folder] parameter, and a call that passes one is
    rejected with a [TypeError]. *)
Lemma logger_folder_counterexample :
  Logger.init
    {| Logger.kw_name := Some "svc"; Logger.kw_level := None;
       Logger.kw_file_logging := Some true;
       Logger.kw_other := [("folder", "out")] |}
    (sample_world [day1])
  = Logger.TypeError.
Proof. reflexivity. Qed.

(** C8, amended: the logger is constructible with exactly the keyword
    parameters [name] (required), [level] (default [DEBUG]) and
    [file_logging] (default false); the folder of the file sink is not a
    parameter and is always ["logs"].  After construction the console sink
    is present, and the file sink is present if and only if file logging was
    requested; when it was not, the constructor leaves the environment as it
    was, so no file or directory is created. *)
Theorem logger_construction (kw : Logger.kwargs) (w : World) :
  (Logger.init kw w = Logger.TypeError
   <-> Logger.kw_other kw <> [] \/ Logger.kw_name kw = None)
  /\ forall lg w',
       Logger.init kw w = Logger.Ok (lg, w') ->
       Logger.kw_name kw = Some (Logger.name lg)
       /\ Logger.level lg = default logging.DEBUG (Logger.kw_level kw)
       /\ (exists console others, handlers lg = ConsoleSink console :: others)
       /\ (is_Some (Logger._file_handler lg)
           <-> default false (Logger.kw_file_logging kw) = true)
       /\ (forall fh, Logger._file_handler lg = Some fh ->
             FileHandler.folder fh = "logs"
             /\ FileHandler.ext fh = Logger.name lg
             /\ exists p,
                  FileHandler.stream fh = Some p
                  /\ drop (List.length (trace w)) (trace w')
                     = [EvMkdir (abspath (cwd w) "logs"); EvOpen p "a"])
       /\ (default false (Logger.kw_file_logging kw) = false ->
           w' = w /\ handlers lg = [ConsoleSink (Logger._handler lg)]).
Proof.
  unfold Logger.init.
  destruct (Logger.kw_other kw) as [|o os].
  2:{ split; [split; [left; discriminate | reflexivity] | discriminate]. }
  destruct (Logger.kw_name kw) as [n|].
  2:{ split; [split; [now right | reflexivity] | discriminate]. }
  split.
  { split.
    - destruct (default false (Logger.kw_file_logging kw));
        [destruct (FileHandler.init n "logs" w)|]; discriminate.
    - intros [H|H]; [now destruct H | discriminate]. }
  intros lg w' Hinit.
  destruct (default false (Logger.kw_file_logging kw)).
  - pose proof (init_spec n "logs" w) as (Hh & Ht & _).
    destruct (FileHandler.init n "logs" w) as [fh0 w0].
    injection Hinit as <- <-. simpl in *. subst fh0.
    split; [reflexivity|]. split; [reflexivity|].
    split; [unfold handlers; eauto|].
    split; [split; eauto|].
    split; [|discriminate].
    intros fh' [= <-]. simpl. split; [reflexivity|]. split; [reflexivity|].
    eexists. split; [reflexivity|]. now rewrite Ht, drop_app_length.
  - injection Hinit as <- <-. simpl.
    split; [reflexivity|]. split; [reflexivity|].
    split; [unfold handlers; eauto|].
    split; [split; [intros [fh' Hfh']|]; discriminate|].
    split; [discriminate|]. intros _. split; reflexivity.
Qed.

Lemma logger_construction_witness :
  exists lg w',
    Logger.init (Logger.mk_kwargs (Some "application") None (Some false) [])
                (sample_world [day1]) = Logger.Ok (lg, w')
    /\ Logger.level lg = logging.DEBUG
    /\ w' = sample_world [day1]
    /\ handlers lg = [ConsoleSink (Logger._handler lg)].
Proof.
  exists (Logger.mk "application" logging.DEBUG
            (logging.mk_StreamHandler [RelativePathFilter.filter]) None),
         (sample_world [day1]).
  assert (Hinit :
    Logger.init (Logger.mk_kwargs (Some "application") None (Some false) [])
                (sample_world [day1])
    = Logger.Ok (Logger.mk "application" logging.DEBUG
                   (logging.mk_StreamHandler [RelativePathFilter.filter]) None,
                 sample_world [day1])) by reflexivity.
  destruct (proj2 (logger_construction
                     (Logger.mk_kwargs (Some "application") None (Some false) [])
                     (sample_world [day1])) _ _ Hinit)
    as (_ & Hlevel & _ & _ & _ & Hoff).
  destruct (Hoff eq_refl) as [Hw Hh].
  split; [exact Hinit | split; [exact Hlevel | split; [exact Hw | exact Hh]]].
Defined.


(** ** What a log call writes *)

(** [emit] touches neither the working directory, nor the directories, nor
    the clock. *)
Lemma emit_frame h record w :
  cwd (snd (FileHandler.emit h record w)) = cwd w
  /\ dirs (snd (FileHandler.emit h record w)) = dirs w
  /\ clock (snd (FileHandler.emit h record w)) = clock w.
Proof.
  destruct h as [fo ex ba mo [p|] cl le fi]; run_io;
    case_bool_decide; simpl;
    repeat (match goal with
            | |- context [if ?b then _ else _] => destruct b
            | |- context [match Formatter.format ?r with _ => _ end] =>
                destruct (Formatter.format r)
            end; simpl); auto.
Qed.

(** The events of an enabled log call, in order: the record, the console
    line with the path redacted once, then the events of the file handler,
    whose line carries the path redacted a second time. *)
Lemma log_enabled_trace lg lvl message fn lno w c :
  Logger_inv lg ->
  Logger.isEnabledFor lg lvl = true ->
  LogLevelColors.getitem (logging.getLevelName lvl) = Some c ->
  let r0 := mk_record (Logger.name lg) lvl (logging.getLevelName lvl) fn lno
              message NoArgs (clock w (ticks w)) "" "" in
  let once := RelativePathFilter.redact fn (cwd w) in
  let twice := RelativePathFilter.redact once (cwd w) in
  let line r :=
    (LogLevelColors.value c ++ Formatter.base_format r message
       ++ LogLevelColors.value LogLevelColors.ENDC) ++ String Formatter.LF "" in
  let console :=
    [EvRecord r0; EvWrite Stderr (line (set_pathname once r0)); EvFlush Stderr] in
  let lg' := fst (Logger.log lvl message fn lno lg w) in
  let w' := snd (Logger.log lvl message fn lno lg w) in
  let steps := drop (List.length (trace w)) (trace w') in
  cwd w' = cwd w /\ dirs w' = dirs w /\ cls_last_entry w' = cls_last_entry w
  /\ match Logger._file_handler lg with
     | None => steps = console /\ lg' = lg /\ files w' = files w
     | Some fh =>
         exists p,
           FileHandler.stream fh = Some p
           /\ let check := clock w (S (ticks w)) in
              let stored := clock w (S (S (ticks w))) in
              let p' := abspath (cwd w)
                          (FileHandler.filename (FileHandler.folder fh) stored
                             (FileHandler.ext fh)) in
              let text := line (set_pathname twice r0) in
              if bool_decide
                   (date (default (cls_last_entry w) (FileHandler._last_entry fh))
                    <> date check)
              then steps = (console ++
                            [EvSetLastEntry stored; EvFlush (FileStream p);
                             EvClose p; EvOpen p' "a";
                             EvWrite (FileStream p') text;
                             EvFlush (FileStream p')])%list
                   /\ files w' !! p' = Some (default "" (files w !! p') ++ text)
              else steps = (console ++
                            [EvWrite (FileStream p) text;
                             EvFlush (FileStream p)])%list
                   /\ files w'
                      = <[p := default "" (files w !! p) ++ text]> (files w)
     end.
Proof.
  intros [Hf Hfh] Hen Hc. cbv zeta.
  destruct (Logger.log lvl message fn lno lg w) as [lg' w'] eqn:E.
  unfold Logger.log in E. rewrite Hen in E.
  unfold Logger._log, Logger.callHandlers, logging.StreamHandler_handle,
    logging.Filterer_filter, FileHandler.handle in E.
  rewrite Hf in E.
  destruct (Logger._file_handler lg) as [fh|] eqn:Efh.
  - destruct (Hfh fh eq_refl) as (Hm & [p Hs] & Hff). rewrite Hff in E.
    unfold logging.StreamHandler_emit, stream_write, stream_flush, emit_event,
      today, getcwd, bind, ret in E. simpl in E.
    unfold Formatter.format in E at 1. simpl in E. rewrite Hc in E. simpl in E.
    match type of E with
    | context [FileHandler.emit fh ?r ?w] => set (r2 := r) in E; set (w2 := w) in E
    end.
    assert (Hfmt : Formatter.format r2
                   = Some (LogLevelColors.value c ++ Formatter.base_format r2 message
                             ++ LogLevelColors.value LogLevelColors.ENDC)).
    { unfold Formatter.format. subst r2. simpl. now rewrite Hc. }
    pose proof (emit_keeps_class_attribute fh r2 w2) as Hcls.
    pose proof (emit_frame fh r2 w2) as (Hcwd & Hdirs & _).
    destruct (decide (date (default (cls_last_entry w2) (FileHandler._last_entry fh))
                      = date (clock w2 (ticks w2)))) as [Hd|Hd].
    + destruct (emit_same_day fh r2 w2 p _ Hs Hfmt Hd) as (Ht & Hfl & _).
      destruct (FileHandler.emit fh r2 w2) as [fh' w3].
      simpl in E, Ht, Hfl, Hcls, Hcwd, Hdirs. injection E as <- <-. simpl.
      rewrite Hcwd, Hdirs, Hcls. do 3 (split; [reflexivity|]).
      exists p. split; [exact Hs|].
      subst w2. simpl in *.
      rewrite bool_decide_eq_false_2 by auto.
      rewrite Ht, Hfl. flatten_trace. rewrite drop_app_length. split; reflexivity.
    + destruct (emit_new_day fh r2 w2 p _ Hs Hfmt Hd) as (Ht & Hfl & _).
      destruct (FileHandler.emit fh r2 w2) as [fh' w3].
      simpl in E, Ht, Hfl, Hcls, Hcwd, Hdirs. injection E as <- <-. simpl.
      rewrite Hcwd, Hdirs, Hcls. do 3 (split; [reflexivity|]).
      exists p. split; [exact Hs|].
      subst w2. simpl in *.
      rewrite bool_decide_eq_true_2 by auto.
      rewrite Ht. rewrite Hm in Hfl. simpl in Hfl. rewrite Hfl, Hm.
      flatten_trace. rewrite drop_app_length. split; reflexivity.
  - unfold logging.StreamHandler_emit, stream_write, stream_flush, emit_event,
      today, getcwd, bind, ret in E. simpl in E.
    unfold Formatter.format in E. simpl in E. rewrite Hc in E. simpl in E.
    injection E as <- <-. simpl.
    flatten_trace. rewrite drop_app_length. destruct lg. simpl in *. subst.
    repeat split.
Qed.

Lemma written_to_app s tr tr' :
  written_to s (tr ++ tr')%list = written_to s tr ++ written_to s tr'.
Proof.
  induction tr as [|e tr IH]; [reflexivity|].
  simpl. now rewrite IH, str_app_assoc.
Qed.


(** The texts an enabled log call sends to its sinks. *)
Lemma log_texts lg lvl message fn lno w c :
  Logger_inv lg ->
  Logger.isEnabledFor lg lvl = true ->
  LogLevelColors.getitem (logging.getLevelName lvl) = Some c ->
  let r0 := mk_record (Logger.name lg) lvl (logging.getLevelName lvl) fn lno
              message NoArgs (clock w (ticks w)) "" "" in
  let once := RelativePathFilter.redact fn (cwd w) in
  let twice := RelativePathFilter.redact once (cwd w) in
  let line r :=
    (LogLevelColors.value c ++ Formatter.base_format r message
       ++ LogLevelColors.value LogLevelColors.ENDC) ++ String Formatter.LF "" in
  let lg' := fst (Logger.log lvl message fn lno lg w) in
  let w' := snd (Logger.log lvl message fn lno lg w) in
  let steps := drop (List.length (trace w)) (trace w') in
  written_to Stderr steps = line (set_pathname once r0)
  /\ forall fh,
       Logger._file_handler lg = Some fh ->
       exists fh' p',
         Logger._file_handler lg' = Some fh'
         /\ FileHandler.stream fh' = Some p'
         /\ written_to (FileStream p') steps = line (set_pathname twice r0)
         /\ files w' !! p'
            = Some (default "" (files w !! p') ++ line (set_pathname twice r0)).
Proof.
  intros Hinv Hen Hc. cbv zeta.
  destruct (log_enabled_trace lg lvl message fn lno w c Hinv Hen Hc)
    as (_ & _ & _ & H).
  destruct (log_enabled_steps lg lvl message fn lno w c Hinv Hen Hc)
    as (_ & _ & H').
  destruct (Logger._file_handler lg) as [fh|].
  - destruct H as (p & Hs & H). cbv zeta in H.
    destruct H' as (fh' & p' & Hfh' & Hs' & Hone & _).
    case_bool_decide; destruct H as [Hsteps Hfiles]; rewrite Hsteps in Hone |- *.
    + split; [simpl; now rewrite !str_app_nil_r|].
      intros fh0 _. exists fh', p'.
      assert (p' = abspath (cwd w)
                     (FileHandler.filename (FileHandler.folder fh)
                        (clock w (S (S (ticks w)))) (FileHandler.ext fh))) as ->.
      { unfold count in Hone. simpl in Hone.
        destruct (String.eqb_spec
                    (abspath (cwd w)
                       (FileHandler.filename (FileHandler.folder fh)
                          (clock w (S (S (ticks w)))) (FileHandler.ext fh))) p')
          as [<-|]; [reflexivity | discriminate]. }
      do 2 (split; [assumption|]). split; [|exact Hfiles].
      simpl. rewrite String.eqb_refl. now rewrite !str_app_nil_r.
    + split; [simpl; now rewrite !str_app_nil_r|].
      intros fh0 _. exists fh', p'.
      assert (p' = p) as ->.
      { unfold count in Hone. simpl in Hone.
        destruct (String.eqb_spec p p') as [<-|]; [reflexivity | discriminate]. }
      do 2 (split; [assumption|]).
      split; [|rewrite Hfiles; apply lookup_insert_eq].
      simpl. rewrite String.eqb_refl. now rewrite !str_app_nil_r.
  - destruct H as (-> & _). split; [|discriminate].
    simpl. now rewrite !str_app_nil_r.
Qed.

(** The five methods are enabled from the level on, and their level names
    have a colour. *)
Lemma severity_enabled lg s :
  (Logger.level lg <= severity_level s)%Z ->
  Logger.isEnabledFor lg (severity_level s) = true
  /\ LogLevelColors.getitem (logging.getLevelName (severity_level s))
     = Some (severity_colour s).
Proof.
  intros Hle. split; [|now destruct s].
  rewrite isEnabledFor_severity. now apply bool_decide_eq_true_2.
Qed.

(** X1: a log method of a severity that the logger's level admits puts on
    the console exactly one line: the colour of the severity, the time the
    record was created, the caller's path with the working directory
    replaced by the marker, the line number, the name of the severity and
    the message as given, the reset code and a line feed. *)
Theorem console_line (lg : Logger.t) (s : Severity) (message fn : string)
    (lno : Z) (w : World) :
  Logger_built lg ->
  (Logger.level lg <= severity_level s)%Z ->
  let now := clock w (ticks w) in
  let w' := snd (log_method s message fn lno lg w) in
  written_to Stderr (drop (List.length (trace w)) (trace w'))
  = (LogLevelColors.value (severity_colour s)
     ++ ("[" ++ (strftime_Ymd now ++ " " ++ strftime_HMS now ++ ","
                   ++ zfill 3 (decimal (microsecond now / 1000)))
           ++ "] | " ++ RelativePathFilter.redact fn (cwd w) ++ ":"
           ++ decimal lno ++ " | "
           ++ logging.getLevelName (severity_level s) ++ " | " ++ message)
     ++ LogLevelColors.value LogLevelColors.ENDC) ++ String Formatter.LF "".
Proof.
  intros Hb Hle. rewrite log_method_level. cbv zeta.
  destruct (severity_enabled lg s Hle) as [Hen Hc].
  exact (proj1 (log_texts lg (severity_level s) message fn lno w _
                  (Logger_built_inv lg Hb) Hen Hc)).
Qed.

(** X2: with file logging, the same call appends exactly one line to the
    file the handler ends on: the record rendered by [Formatter.format] with
    the path redacted twice, once by each handler's filter, and a line
    feed. *)
Theorem file_line (lg : Logger.t) (s : Severity) (message fn : string)
    (lno : Z) (w : World) (fh : FileHandler.t) :
  Logger_built lg ->
  Logger._file_handler lg = Some fh ->
  (Logger.level lg <= severity_level s)%Z ->
  let lg' := fst (log_method s message fn lno lg w) in
  let w' := snd (log_method s message fn lno lg w) in
  let twice :=
    RelativePathFilter.redact (RelativePathFilter.redact fn (cwd w)) (cwd w) in
  exists fh' p' text,
    Logger._file_handler lg' = Some fh'
    /\ FileHandler.stream fh' = Some p'
    /\ Formatter.format
         (mk_record (Logger.name lg) (severity_level s)
            (logging.getLevelName (severity_level s)) twice lno message
            NoArgs (clock w (ticks w)) "" "")
       = Some text
    /\ written_to (FileStream p') (drop (List.length (trace w)) (trace w'))
       = text ++ String Formatter.LF ""
    /\ files w' !! p'
       = Some (default "" (files w !! p') ++ text ++ String Formatter.LF "").
Proof.
  intros Hb Hfh Hle. rewrite log_method_level. cbv zeta.
  destruct (severity_enabled lg s Hle) as [Hen Hc].
  destruct (proj2 (log_texts lg (severity_level s) message fn lno w _
                     (Logger_built_inv lg Hb) Hen Hc) fh Hfh)
    as (fh' & p' & Hfh' & Hs' & Hw & Hf).
  exists fh', p'. eexists. split; [exact Hfh'|]. split; [exact Hs'|].
  split; [unfold Formatter.format; simpl; rewrite Hc; reflexivity|].
  split; [exact Hw | exact Hf].
Qed.

(** X3: when the working directory is not empty and holds no marker
    character, the file receives the very text the console receives. *)
Theorem sinks_receive_same_text (lg : Logger.t) (s : Severity)
    (message fn : string) (lno : Z) (w : World) (fh : FileHandler.t) :
  Logger_built lg ->
  Logger._file_handler lg = Some fh ->
  (Logger.level lg <= severity_level s)%Z ->
  cwd w <> "" ->
  PyStr.has_char "~" (cwd w) = false ->
  let lg' := fst (log_method s message fn lno lg w) in
  let w' := snd (log_method s message fn lno lg w) in
  exists fh' p',
    Logger._file_handler lg' = Some fh'
    /\ FileHandler.stream fh' = Some p'
    /\ written_to (FileStream p') (drop (List.length (trace w)) (trace w'))
       = written_to Stderr (drop (List.length (trace w)) (trace w')).
Proof.
  intros Hb Hfh Hle Hne Hmark. rewrite log_method_level. cbv zeta.
  destruct (severity_enabled lg s Hle) as [Hen Hc].
  destruct (log_texts lg (severity_level s) message fn lno w _
              (Logger_built_inv lg Hb) Hen Hc) as (Hconsole & Hfile).
  destruct (Hfile fh Hfh) as (fh' & p' & Hfh' & Hs' & Hw & _).
  exists fh', p'. split; [exact Hfh'|]. split; [exact Hs'|].
  cbv zeta in Hconsole. rewrite Hw, Hconsole.
  now rewrite redact_twice by assumption.
Qed.

(** ** The entry point *)

(** X4: in every environment, [main] builds a logger without file handler,
    creates no file and no directory, and writes one line to the console:
    the [INFO] line of ["Hello, world!"] for line 7 of the module's file. *)
Theorem main_prints_one_line (file : string) (w : World) :
  let now := clock w (ticks w) in
  exists logs w',
    main file w = Logger.Ok (logs, w')
    /\ Logger._file_handler logs = None
    /\ files w' = files w /\ dirs w' = dirs w
    /\ count is_write (drop (List.length (trace w)) (trace w')) = 1
    /\ written_to Stderr (drop (List.length (trace w)) (trace w'))
       = (LogLevelColors.value LogLevelColors.INFO
          ++ ("[" ++ (strftime_Ymd now ++ " " ++ strftime_HMS now ++ ","
                        ++ zfill 3 (decimal (microsecond now / 1000)))
                ++ "] | " ++ RelativePathFilter.redact file (cwd w)
                ++ ":7 | INFO | Hello, world!")
          ++ LogLevelColors.value LogLevelColors.ENDC) ++ String Formatter.LF "".
Proof.
  cbv zeta. unfold main. simpl.
  set (lg := Logger.mk "application" logging.DEBUG
               (logging.mk_StreamHandler [RelativePathFilter.filter]) None).
  assert (Hinv : Logger_inv lg) by (split; [reflexivity | discriminate]).
  destruct (log_enabled_trace lg logging.INFO "Hello, world!" file 7 w
              LogLevelColors.INFO Hinv eq_refl eq_refl)
    as (_ & Hdirs & _ & Hsteps & Hlg & Hfiles).
  unfold Logger.info.
  destruct (Logger.log logging.INFO "Hello, world!" file 7 lg w) as [lg' w'].
  simpl in *. subst lg'. exists lg, w'.
  rewrite Hsteps. do 5 (split; [trivial|]).
  simpl written_to. now rewrite !str_app_nil_r.
Qed.

(** ** Files are only ever appended to *)

(** The file system [emit] leaves behind, for a handler in append mode with
    an open stream. *)
Lemma emit_files h record w p :
  FileHandler.stream h = Some p ->
  FileHandler.mode h = "a" ->
  let p' := abspath (cwd w)
              (FileHandler.filename (FileHandler.folder h)
                 (clock w (S (ticks w))) (FileHandler.ext h)) in
  let added := match Formatter.format record with
               | Some text => text ++ String Formatter.LF ""
               | None => ""
               end in
  files (snd (FileHandler.emit h record w))
  = if bool_decide (date (default (cls_last_entry w) (FileHandler._last_entry h))
                    <> date (clock w (ticks w)))
    then <[p' := default "" (files w !! p') ++ added]> (files w)
    else match Formatter.format record with
         | Some _ => <[p := default "" (files w !! p) ++ added]> (files w)
         | None => files w
         end.
Proof.
  intros Hs Hm. cbv zeta. destruct h; simpl in *; subst. run_io.
  case_bool_decide; simpl; destruct (Formatter.format record); simpl;
    rewrite ?lookup_insert_eq, ?insert_insert_eq, ?str_app_nil_r; reflexivity.
Qed.

(** X6: a write through a file handler built by the module never shortens
    or removes a file: every file keeps the text it had as a prefix, and
    every file other than the one the handler ends on is left as it was. *)
Theorem emit_only_appends (h : FileHandler.t) (record : LogRecord) (w : World) :
  FileHandler_built h ->
  let h' := fst (FileHandler.emit h record w) in
  let w' := snd (FileHandler.emit h record w) in
  (forall q old, files w !! q = Some old ->
                 exists suffix, files w' !! q = Some (old ++ suffix))
  /\ (forall q, FileHandler.stream h' <> Some q -> files w' !! q = files w !! q).
Proof.
  intros Hb. cbv zeta.
  destruct (FileHandler_built_open h Hb) as [Hm [p Hs]].
  rewrite (emit_files h record w p Hs Hm), (emit_handler h record w p Hs).
  split.
  - intros q old Hq.
    case_bool_decide; [|destruct (Formatter.format record)];
      try (rewrite lookup_insert; case_decide; subst; rewrite ?Hq; simpl; eauto);
      exists ""; now rewrite str_app_nil_r.
  - intros q Hne.
    case_bool_decide; [|destruct (Formatter.format record)]; simpl in Hne;
      try (rewrite lookup_insert_ne by congruence); reflexivity.
Qed.

(** X7: building a file handler when its folder and today's file are
    already there (after a restart, say) changes neither the directories nor
    any file; the handler opens the existing file. *)
Theorem init_on_existing_file (ext folder : string) (w : World) (old : string) :
  let path :=
    abspath (cwd w)
      (abspath (cwd w) (FileHandler.filename folder (clock w (ticks w)) ext)) in
  abspath (cwd w) folder ∈ dirs w ->
  files w !! path = Some old ->
  dirs (snd (FileHandler.init ext folder w)) = dirs w
  /\ files (snd (FileHandler.init ext folder w)) = files w
  /\ FileHandler.stream (fst (FileHandler.init ext folder w)) = Some path.
Proof.
  intros path Hdir Hfile.
  destruct (init_spec ext folder w) as (Hh & _ & Hf & Hd & _).
  fold path in Hf. rewrite Hh, Hf, Hd, Hfile. simpl.
  split; [set_solver|]. split; [now apply insert_id | reflexivity].
Qed.

(** X8: [emit] never reconfigures a handler built by the module: folder,
    tag, mode and filters stay, the stream stays open, and the file name
    either stays or becomes the name for the date just stored. *)
Theorem emit_keeps_configuration (h : FileHandler.t) (record : LogRecord)
    (w : World) :
  FileHandler_built h ->
  let h' := fst (FileHandler.emit h record w) in
  FileHandler.folder h' = FileHandler.folder h
  /\ FileHandler.ext h' = FileHandler.ext h
  /\ FileHandler.mode h' = "a"
  /\ FileHandler.filters h' = FileHandler.filters h
  /\ (exists p', FileHandler.stream h' = Some p')
  /\ (FileHandler.baseFilename h' = FileHandler.baseFilename h
      \/ FileHandler.baseFilename h'
         = FileHandler.filename (FileHandler.folder h) (clock w (S (ticks w)))
             (FileHandler.ext h)).
Proof.
  intros Hb. cbv zeta.
  destruct (FileHandler_built_open h Hb) as [Hm [p Hs]].
  rewrite (emit_handler h record w p Hs).
  case_bool_decide; simpl; rewrite ?Hm; repeat split; eauto.
Qed.

(** A log call changes nothing of the logger but the file handler. *)
Lemma log_keeps_logger lvl message fn lno lg w :
  Logger_inv lg ->
  let lg' := fst (Logger.log lvl message fn lno lg w) in
  Logger.name lg' = Logger.name lg
  /\ Logger.level lg' = Logger.level lg
  /\ Logger._handler lg' = Logger._handler lg
  /\ (Logger._file_handler lg' = None <-> Logger._file_handler lg = None).
Proof.
  intros [Hf Hfh]. cbv zeta. unfold Logger.log.
  destruct (Logger.isEnabledFor lg lvl); [|now repeat split].
  unfold Logger._log, Logger.callHandlers, logging.StreamHandler_handle,
    logging.Filterer_filter, FileHandler.handle.
  rewrite Hf.
  destruct (Logger._file_handler lg) as [fh|] eqn:Efh.
  - destruct (Hfh fh eq_refl) as (_ & _ & Hff). rewrite Hff.
    unfold today, getcwd, emit_event, bind, ret. simpl.
    match goal with
    | |- context [logging.StreamHandler_emit ?s ?r ?w] =>
        destruct (logging.StreamHandler_emit s r w) as [[] w1]
    end.
    simpl.
    match goal with
    | |- context [FileHandler.emit fh ?r ?w] =>
        destruct (FileHandler.emit fh r w) as [fh' w3]
    end.
    simpl. repeat split; discriminate.
  - unfold today, getcwd, emit_event, bind, ret. simpl.
    match goal with
    | |- context [logging.StreamHandler_emit ?s ?r ?w] =>
        destruct (logging.StreamHandler_emit s r w) as [[] w1]
    end.
    simpl. rewrite Efh. now repeat split.
Qed.

(** X9: no log call, at whatever level, changes the name, the level or the
    console handler of a logger, nor adds or removes its file handler. *)
Theorem log_keeps_configuration (lg : Logger.t) (lvl : Z) (message fn : string)
    (lno : Z) (w : World) :
  Logger_built lg ->
  let lg' := fst (Logger.log lvl message fn lno lg w) in
  Logger.name lg' = Logger.name lg
  /\ Logger.level lg' = Logger.level lg
  /\ Logger._handler lg' = Logger._handler lg
  /\ (Logger._file_handler lg' = None <-> Logger._file_handler lg = None).
Proof. intros Hb. apply log_keeps_logger, Logger_built_inv, Hb. Qed.

(** ** One file per day *)

Lemma four_digits_render_back :
  forallb (renders_back 4) (seq 0 (Z.to_nat 10000)) = true.
Proof. vm_compute. reflexivity. Qed.

Lemma two_digits_render_back :
  forallb (renders_back 2) (seq 0 (Z.to_nat 100)) = true.
Proof. vm_compute. reflexivity. Qed.

Lemma renders_back_spec width (bound z : Z) :
  forallb (renders_back width) (seq 0 (Z.to_nat bound)) = true ->
  (0 <= z < bound)%Z ->
  String.length (zfill width (decimal z)) = width
  /\ digits_value 0 (zfill width (decimal z)) = z.
Proof.
  intros Hall Hz. rewrite forallb_forall in Hall.
  specialize (Hall (Z.to_nat z)).
  assert (Hin : In (Z.to_nat z) (seq 0 (Z.to_nat bound))) by (apply in_seq; lia).
  apply Hall in Hin. unfold renders_back in Hin.
  rewrite Z2Nat.id in Hin by lia.
  apply andb_true_iff in Hin as [Hlen Hval].
  apply Nat.eqb_eq in Hlen. apply Z.eqb_eq in Hval. auto.
Qed.

Lemma str_app_inj_length a a' b b' :
  String.length a = String.length a' -> a ++ b = a' ++ b' -> a = a' /\ b = b'.
Proof.
  revert a'. induction a as [|x a IH]; intros [|x' a'] Hlen Heq;
    try discriminate; [auto|].
  rewrite !app_cons in Heq. injection Heq as -> Heq. injection Hlen as Hlen.
  destruct (IH a' Hlen Heq) as [-> ->]. auto.
Qed.

Lemma str_app_inv_head a b b' : a ++ b = a ++ b' -> b = b'.
Proof. intros H. now apply (str_app_inj_length a a b b'). Qed.

(** The date text of a valid date has ten characters and determines the
    date. *)
Lemma strftime_Ymd_inj t t' rest rest' :
  valid_date t -> valid_date t' ->
  strftime_Ymd t ++ rest = strftime_Ymd t' ++ rest' ->
  date t = date t'.
Proof.
  intros (Hy & Hm & Hd) (Hy' & Hm' & Hd') Heq.
  destruct (renders_back_spec 4 10000 (year t) four_digits_render_back)
    as [Ly Vy]; [lia|].
  destruct (renders_back_spec 4 10000 (year t') four_digits_render_back)
    as [Ly' Vy']; [lia|].
  destruct (renders_back_spec 2 100 (month t) two_digits_render_back)
    as [Lm Vm]; [lia|].
  destruct (renders_back_spec 2 100 (month t') two_digits_render_back)
    as [Lm' Vm']; [lia|].
  destruct (renders_back_spec 2 100 (day t) two_digits_render_back)
    as [Ld Vd]; [lia|].
  destruct (renders_back_spec 2 100 (day t') two_digits_render_back)
    as [Ld' Vd']; [lia|].
  unfold strftime_Ymd in Heq. rewrite !str_app_assoc in Heq.
  apply str_app_inj_length in Heq as [Ey Heq]; [|congruence].
  apply (str_app_inv_head "-") in Heq.
  apply str_app_inj_length in Heq as [Em Heq]; [|congruence].
  apply (str_app_inv_head "-") in Heq.
  apply str_app_inj_length in Heq as [Ed _]; [|congruence].
  unfold date. congruence.
Qed.

Lemma prefix_slash_join folder x y :
  String.prefix "/" (folder ++ "/" ++ x) = String.prefix "/" (folder ++ "/" ++ y).
Proof.
  destruct folder as [|c f].
  - change (String.prefix "/" (String "/" x) = String.prefix "/" (String "/" y)).
    cbn [String.prefix]. destruct (ascii_dec "/" "/"); [|congruence].
    now rewrite !prefix_nil.
  - rewrite !app_cons. cbn [String.prefix].
    destruct (ascii_dec "/" c); [now rewrite !prefix_nil | reflexivity].
Qed.

(** Distinct valid dates give distinct log files. *)
Lemma log_file_name_inj d folder ext t t' :
  valid_date t -> valid_date t' ->
  abspath d (FileHandler.filename folder t ext)
  = abspath d (FileHandler.filename folder t' ext) ->
  date t = date t'.
Proof.
  intros Ht Ht'. unfold abspath, FileHandler.filename, joinpath. intros Heq.
  pose proof (prefix_slash_join folder) as Hp.
  rewrite (Hp _ (strftime_Ymd t' ++ "-" ++ ext ++ ".log")) in Heq.
  destruct (String.prefix "/" (folder ++ "/" ++ strftime_Ymd t' ++ "-" ++ ext ++ ".log")).
  - do 2 apply str_app_inv_head in Heq.
    now apply strftime_Ymd_inj in Heq.
  - do 4 apply str_app_inv_head in Heq.
    now apply strftime_Ymd_inj in Heq.
Qed.

(** X10: for valid dates, two days share a log file exactly when they are
    the same calendar date: the file name determines the date. *)
Theorem log_file_per_date (d folder ext : string) (t t' : datetime) :
  valid_date t -> valid_date t' ->
  abspath d (FileHandler.filename folder t ext)
  = abspath d (FileHandler.filename folder t' ext)
  <-> date t = date t'.
Proof.
  intros Ht Ht'. split.
  - now apply log_file_name_inj.
  - intros Hd. unfold FileHandler.filename.
    now rewrite (strftime_Ymd_date t t' Hd).
Qed.

(** X11: two writes through a handler whose open file is that of day [d],
    the first on the recorded date and the second on another day, leave the
    first line in the file of [d] and the second in the file of the new
    date, which is another file; each line is appended to what its file held
    and no other file changes. *)
Theorem two_days_two_files (h : FileHandler.t) (r1 r2 : LogRecord) (w : World)
    (text1 text2 : string) (d : datetime) :
  FileHandler_built h ->
  valid_date d -> valid_date (clock w (S (S (ticks w)))) ->
  let p := abspath (cwd w)
             (FileHandler.filename (FileHandler.folder h) d (FileHandler.ext h)) in
  let p' := abspath (cwd w)
              (FileHandler.filename (FileHandler.folder h)
                 (clock w (S (S (ticks w)))) (FileHandler.ext h)) in
  let recorded := default (cls_last_entry w) (FileHandler._last_entry h) in
  FileHandler.stream h = Some p ->
  Formatter.format r1 = Some text1 ->
  Formatter.format r2 = Some text2 ->
  date recorded = date (clock w (ticks w)) ->
  date recorded <> date (clock w (S (ticks w))) ->
  date (clock w (S (S (ticks w)))) <> date d ->
  let h1 := fst (FileHandler.emit h r1 w) in
  let w1 := snd (FileHandler.emit h r1 w) in
  let w2 := snd (FileHandler.emit h1 r2 w1) in
  p' <> p
  /\ files w2 !! p
     = Some (default "" (files w !! p) ++ text1 ++ String Formatter.LF "")
  /\ files w2 !! p'
     = Some (default "" (files w !! p') ++ text2 ++ String Formatter.LF "")
  /\ forall q, q <> p -> q <> p' -> files w2 !! q = files w !! q.
Proof.
  intros Hb Hd Hd' p p' recorded Hs Hf1 Hf2 Hsame Hnew Hdiff h1 w1 w2.
  destruct (FileHandler_built_open h Hb) as [Hm _].
  assert (Hpp : p' <> p).
  { intros E. apply Hdiff. now apply (log_file_name_inj _ _ _ _ _ Hd' Hd E). }
  assert (Hh1 : h1 = h).
  { subst h1. rewrite (emit_handler h r1 w p Hs).
    now rewrite bool_decide_eq_false_2 by auto. }
  destruct (emit_frame h r1 w) as (Hcwd & _ & Hclock).
  pose proof (emit_keeps_class_attribute h r1 w) as Hcls.
  destruct (emit_same_day h r1 w p text1 Hs Hf1 Hsame) as (_ & Hfiles1 & Hticks & _).
  fold w1 in Hcwd, Hclock, Hcls, Hfiles1, Hticks.
  subst w2. rewrite Hh1.
  rewrite (emit_files h r2 w1 p Hs Hm). cbv zeta.
  rewrite Hcwd, Hclock, Hcls, Hticks, Hf2.
  rewrite bool_decide_eq_true_2 by exact Hnew.
  fold p'. rewrite Hfiles1.
  split; [exact Hpp|]. split; [|split].
  - rewrite lookup_insert_ne by exact Hpp. now rewrite lookup_insert_eq.
  - rewrite lookup_insert_eq. now rewrite lookup_insert_ne by congruence.
  - intros q Hq Hq'. now rewrite !lookup_insert_ne by congruence.
Qed.

(** ** Levels without a colour *)

Lemma level_without_colour lvl :
  ~ In lvl [logging.DEBUG; logging.INFO; logging.WARNING; logging.ERROR;
            logging.CRITICAL] ->
  LogLevelColors.getitem (logging.getLevelName lvl) = None.
Proof.
  intros Hnot. unfold logging.getLevelName.
  repeat match goal with
         | |- context [Z.eqb ?a ?b] => destruct (Z.eqb_spec a b)
         end;
    try (exfalso; apply Hnot; subst; simpl; tauto); reflexivity.
Qed.

(** What [emit] does with a record its formatter rejects. *)
Lemma emit_unformatted h record w p :
  FileHandler.stream h = Some p ->
  Formatter.format record = None ->
  count is_record
    (drop (List.length (trace w)) (trace (snd (FileHandler.emit h record w)))) = 0
  /\ count is_write
       (drop (List.length (trace w)) (trace (snd (FileHandler.emit h record w)))) = 0.
Proof.
  intros Hs Hf. destruct h; simpl in *; subst. run_io.
  case_bool_decide; simpl; rewrite Hf; simpl; flatten_trace;
    rewrite ?drop_app_length, ?drop_all; split; reflexivity.
Qed.

(** X13: a call of [log] at an enabled level other than the five named
    ones builds its record, yet no text reaches any file: the formatter
    rejects the level name, so every file keeps exactly the text it had, and
    a file that did not exist is at most created empty by a rotation. *)
Theorem custom_level_reaches_no_file (lg : Logger.t) (lvl : Z)
    (message fn : string) (lno : Z) (w : World) :
  Logger_built lg ->
  Logger.isEnabledFor lg lvl = true ->
  ~ In lvl [logging.DEBUG; logging.INFO; logging.WARNING; logging.ERROR;
            logging.CRITICAL] ->
  let w' := snd (Logger.log lvl message fn lno lg w) in
  count is_record (drop (List.length (trace w)) (trace w')) = 1
  /\ (forall q old, files w !! q = Some old -> files w' !! q = Some old)
  /\ (forall q, files w !! q = None ->
                files w' !! q = None \/ files w' !! q = Some "").
Proof.
  intros Hb Hen Hlvl. cbv zeta.
  pose proof (level_without_colour lvl Hlvl) as Hc.
  destruct (Logger_built_inv lg Hb) as [Hf Hfh].
  destruct (Logger.log lvl message fn lno lg w) as [lg' w'] eqn:E.
  unfold Logger.log in E. rewrite Hen in E.
  unfold Logger._log, Logger.callHandlers, logging.StreamHandler_handle,
    logging.Filterer_filter, FileHandler.handle in E.
  rewrite Hf in E.
  destruct (Logger._file_handler lg) as [fh|] eqn:Efh.
  - destruct (Hfh fh eq_refl) as (Hm & [p Hs] & Hff). rewrite Hff in E.
    unfold logging.StreamHandler_emit, stream_write, stream_flush, emit_event,
      today, getcwd, bind, ret in E. simpl in E.
    unfold Formatter.format in E at 1. simpl in E. rewrite Hc in E. simpl in E.
    match type of E with
    | context [FileHandler.emit fh ?r ?w] => set (r2 := r) in E; set (w2 := w) in E
    end.
    assert (Hfmt : Formatter.format r2 = None).
    { unfold Formatter.format. subst r2. simpl. now rewrite Hc. }
    pose proof (emit_files fh r2 w2 p Hs Hm) as Hfiles. cbv zeta in Hfiles.
    rewrite Hfmt in Hfiles.
    destruct (emit_unformatted fh r2 w2 p Hs Hfmt) as [Hrec Hwr].
    assert (Hext : exists rest,
               trace (snd (FileHandler.emit fh r2 w2)) = (trace w2 ++ rest)%list).
    { destruct (decide (date (default (cls_last_entry w2) (FileHandler._last_entry fh))
                        = date (clock w2 (ticks w2)))) as [Hd|Hd].
      - destruct (emit_same_day_events fh r2 w2 p Hs Hd) as (rest & Ht & _). eauto.
      - destruct (emit_new_day_events fh r2 w2 p Hs Hd) as (rest & Ht & _). eauto. }
    destruct Hext as [rest Hrest].
    rewrite Hrest, drop_app_length in Hrec, Hwr.
    destruct (FileHandler.emit fh r2 w2) as [fh' w3].
    simpl in E, Hfiles, Hrest. injection E as <- <-. simpl.
    rewrite Hrest, Hfiles. subst w2. simpl. flatten_trace.
    rewrite drop_app_length. unfold count in *. simpl.
    rewrite Hrec. split; [reflexivity|].
    split.
    + intros q old Hq. rewrite str_app_nil_r.
      case_bool_decide; [|exact Hq].
      rewrite lookup_insert. case_decide; subst; now rewrite Hq.
    + intros q Hq. rewrite str_app_nil_r.
      case_bool_decide; [|now left].
      rewrite lookup_insert. case_decide; subst; rewrite Hq; auto.
  - unfold logging.StreamHandler_emit, stream_write, stream_flush, emit_event,
      today, getcwd, bind, ret in E. simpl in E.
    unfold Formatter.format in E. simpl in E. rewrite Hc in E. simpl in E.
    injection E as <- <-. simpl. rewrite drop_app_length.
    repeat split; auto.
Qed.

(** ** More on redaction *)

Lemma prefix_length a s :
  String.prefix a s = true -> String.length a <= String.length s.
Proof.
  revert s. induction a as [|x a IH]; intros [|y s] H; simpl in *;
    try lia; try discriminate.
  destruct (ascii_dec x y); [|discriminate]. apply IH in H. lia.
Qed.

Lemma str_length_app a b :
  String.length (a ++ b) = String.length a + String.length b.
Proof.
  induction a as [|x a IH]; [reflexivity|]. rewrite app_cons. simpl. lia.
Qed.

(** X14: for a non-empty root without the marker character, the redacted
    path no longer contains the root anywhere. *)
Theorem redacted_path_hides_root (p root : string) :
  root <> "" ->
  PyStr.has_char "~" root = false ->
  PyStr.contains root (RelativePathFilter.redact p root) = false.
Proof. intros Hne Hm. now apply redact_removes_root. Qed.

(** X15: for a non-empty root, redaction never makes a path longer. *)
Theorem redact_never_lengthens (p root : string) :
  root <> "" ->
  String.length (RelativePathFilter.redact p root) <= String.length p.
Proof.
  intros Hne.
  induction p as [| s Hs Hp IH | c s Hp IH] using (redact_ind root Hne).
  - now rewrite redact_nil.
  - rewrite redact_match by assumption. rewrite str_length_app. simpl.
    rewrite drop_length in IH.
    apply prefix_length in Hp. destruct root; [congruence|]. simpl in *. lia.
  - rewrite redact_skip by assumption. simpl. lia.
Qed.

(** ** Replacing the formatter *)

(** With the module's own formatter, the handler with a formatter
    attribute is the handler of the sections above. *)
Lemma cf_emit_default h record :
  Configurable.emit Formatter.format h record = FileHandler.emit h record.
Proof. reflexivity. Qed.

(** What [emit] does under a formatter [f], for a handler in append mode
    with an open stream: the handler it leaves is the one the module's own
    formatter would leave, and the text of [f], if any, is what the final
    stream receives. *)
Lemma cf_emit_spec f h record w p :
  FileHandler.stream h = Some p ->
  FileHandler.mode h = "a" ->
  let added := match f record with
               | Some text => text ++ String Formatter.LF ""
               | None => ""
               end in
  let h' := fst (Configurable.emit f h record w) in
  let w' := snd (Configurable.emit f h record w) in
  h' = fst (FileHandler.emit h record w)
  /\ cwd w' = cwd w /\ dirs w' = dirs w
  /\ exists rest q,
       trace w' = (trace w ++ rest)%list
       /\ written_to Stderr rest = ""
       /\ FileHandler.stream h' = Some q
       /\ written_to (FileStream q) rest = added
       /\ (forall text, f record = Some text ->
             files w' !! q
             = Some (default "" (files w !! q) ++ text ++ String Formatter.LF ""))
       /\ forall q', q' <> q -> files w' !! q' = files w !! q'.
Proof.
  intros Hs Hm. cbv zeta. destruct h; simpl in *; subst.
  unfold Configurable.emit, Configurable.super_emit,
    Configurable.StreamHandler_emit. run_io.
  case_bool_decide; simpl;
    destruct (f record), (Formatter.format record); simpl; flatten_trace;
    (do 3 (split; [reflexivity|])); eexists _, _;
    (split; [reflexivity || (symmetry; apply List.app_nil_r)|]);
    (split; [reflexivity|]); (split; [reflexivity|]);
    (split; [simpl; rewrite ?String.eqb_refl, ?str_app_nil_r; reflexivity|]);
    (split; [intros text [= <-] || (intros text; discriminate);
             rewrite ?lookup_insert_eq; reflexivity|]);
    intros q' Hq'; rewrite ?lookup_insert_ne by congruence; reflexivity.
Qed.

Lemma cf_built_inv st : Configurable_built st -> Logger_inv (Configurable.logger st).
Proof.
  induction 1 as [kw w st w' Hinit | f st _ IH | lvl message fn lno st w _ IH].
  - unfold Configurable.init in Hinit.
    destruct (Logger.init kw w) as [[lg w0]|] eqn:E; [|discriminate].
    injection Hinit as <- <-. simpl. eapply init_inv, E.
  - exact IH.
  - destruct IH as [Hf Hfh]. unfold Configurable.log.
    destruct (Logger.isEnabledFor (Configurable.logger st) lvl); [|now split].
    unfold Configurable.callHandlers, logging.Filterer_filter.
    rewrite Hf.
    unfold today, getcwd, emit_event, bind, ret. simpl.
    match goal with
    | |- context [Configurable.StreamHandler_emit ?f ?s ?r ?w] =>
        destruct (Configurable.StreamHandler_emit f s r w) as [[] w1]
    end.
    destruct (Logger._file_handler (Configurable.logger st)) as [fh|] eqn:Efh;
      [|simpl; split; [exact Hf | intros fh0 Hfh0; congruence]].
    destruct (Hfh fh eq_refl) as (Hm & [p Hs] & Hff). rewrite Hff. simpl.
    match goal with
    | |- context [Configurable.emit ?f fh ?r ?w] =>
        destruct (cf_emit_spec f fh r w p Hs Hm) as (He & _);
        pose proof (emit_handler fh r w p Hs) as He';
        destruct (Configurable.emit f fh r w) as [fh' w3]
    end.
    simpl in *. split; [exact Hf|]. intros fh0 [= <-]. rewrite He, He'.
    case_bool_decide; simpl; eauto.
Qed.

(** X16: after [set_formatter f], an enabled log call sends to the console
    the text [f] makes of the record with the path redacted once, and, with
    file logging, appends to the file the text [f] makes of the record with
    the path redacted twice; both handlers now hold [f]. *)
Theorem set_formatter_applies (st : Configurable.t) (f : formatter) (lvl : Z)
    (message fn : string) (lno : Z) (w : World) (text1 text2 : string) :
  Configurable_built st ->
  Logger.isEnabledFor (Configurable.logger st) lvl = true ->
  let record path :=
    mk_record (Logger.name (Configurable.logger st)) lvl
      (logging.getLevelName lvl) path lno message NoArgs (clock w (ticks w)) "" "" in
  let once := RelativePathFilter.redact fn (cwd w) in
  let twice := RelativePathFilter.redact once (cwd w) in
  f (record once) = Some text1 ->
  f (record twice) = Some text2 ->
  let st' := fst (Configurable.log lvl message fn lno
                    (Configurable.set_formatter f st) w) in
  let w' := snd (Configurable.log lvl message fn lno
                   (Configurable.set_formatter f st) w) in
  let steps := drop (List.length (trace w)) (trace w') in
  written_to Stderr steps = text1 ++ String Formatter.LF ""
  /\ Configurable.console_formatter st' = f
  /\ forall fh,
       Logger._file_handler (Configurable.logger st) = Some fh ->
       Configurable.file_formatter st' = f
       /\ exists fh' p',
            Logger._file_handler (Configurable.logger st') = Some fh'
            /\ FileHandler.stream fh' = Some p'
            /\ written_to (FileStream p') steps
               = text2 ++ String Formatter.LF ""
            /\ files w' !! p'
               = Some (default "" (files w !! p') ++ text2
                         ++ String Formatter.LF "").
Proof.
  intros Hb Hen record once twice Hf1 Hf2. cbv zeta.
  destruct (cf_built_inv st Hb) as [Hf Hfh].
  destruct (Configurable.log lvl message fn lno
              (Configurable.set_formatter f st) w) as [st' w'] eqn:E.
  unfold Configurable.log in E. simpl in E. rewrite Hen in E.
  unfold Configurable.callHandlers, logging.Filterer_filter in E. simpl in E.
  rewrite Hf in E.
  unfold Configurable.StreamHandler_emit at 1, stream_write, stream_flush,
    emit_event, today, getcwd, bind, ret in E. simpl in E.
  fold (record fn) in E. fold once in E.
  change (set_pathname once (record fn)) with (record once) in E.
  rewrite Hf1 in E. simpl in E.
  destruct (Logger._file_handler (Configurable.logger st)) as [fh|] eqn:Efh.
  - destruct (Hfh fh eq_refl) as (Hm & [p Hs] & Hff). rewrite Hff in E.
    simpl in E.
    change (set_pathname (RelativePathFilter.redact once (cwd w)) (record once))
      with (record twice) in E.
    match type of E with
    | context [Configurable.emit f fh ?r ?w] => set (w2 := w) in E
    end.
    destruct (cf_emit_spec f fh (record twice) w2 p Hs Hm)
      as (_ & _ & _ & rest & q & Ht & Herr & Hq & Hfile & Hfiles & _).
    rewrite Hf2 in Hfile.
    destruct (Configurable.emit f fh (record twice) w2) as [fh' w3].
    simpl in E, Ht, Hq, Hfiles. injection E as <- <-. simpl.
    rewrite Ht. subst w2. simpl in *. flatten_trace.
    rewrite drop_app_length. simpl. rewrite Herr.
    split; [now rewrite !str_app_nil_r|]. split; [reflexivity|].
    intros fh0 _. split; [reflexivity|].
    exists fh', q. do 2 (split; [trivial|]).
    split; [|exact (Hfiles text2 Hf2)].
    destruct q; exact Hfile.
  - injection E as <- <-. simpl. flatten_trace. rewrite drop_app_length. simpl.
    split; [now rewrite !str_app_nil_r|]. split; [reflexivity | discriminate].
Qed.

(** With the module's own formatter on both handlers, a log call is the
    log call of the sections above. *)
Lemma cf_log_agrees st lvl message fn lno w :
  Configurable.console_formatter st = Formatter.format ->
  (Logger._file_handler (Configurable.logger st) <> None ->
   Configurable.file_formatter st = Formatter.format) ->
  Configurable.logger (fst (Configurable.log lvl message fn lno st w))
  = fst (Logger.log lvl message fn lno (Configurable.logger st) w)
  /\ snd (Configurable.log lvl message fn lno st w)
     = snd (Logger.log lvl message fn lno (Configurable.logger st) w).
Proof.
  intros Hc Hfile. unfold Configurable.log, Logger.log.
  destruct (Logger.isEnabledFor (Configurable.logger st) lvl); [|now split].
  unfold Logger._log, Configurable.callHandlers, Logger.callHandlers,
    logging.StreamHandler_handle, FileHandler.handle, logging.Filterer_filter.
  rewrite Hc.
  change (Configurable.StreamHandler_emit Formatter.format)
    with logging.StreamHandler_emit.
  unfold today, getcwd, emit_event, bind, ret. simpl.
  destruct (logging.run_filters _ _ _) as [r1 ok1]. simpl.
  match goal with
  | |- context [if ok1 then ?a else ?b] => destruct (if ok1 then a else b) as [[] w1]
  end.
  destruct (Logger._file_handler (Configurable.logger st)) as [fh|];
    [|now split].
  rewrite Hfile by discriminate. rewrite cf_emit_default. simpl.
  destruct (logging.run_filters _ _ _) as [r2 ok2]. simpl.
  destruct ok2; [destruct (FileHandler.emit fh r2 w1)|]; now split.
Qed.

(** X17: putting the module's own [Formatter] back with [set_formatter]
    undoes an earlier [set_formatter]: the next log call changes logger and
    environment exactly as it would have without either. *)
Theorem set_formatter_default_restores (st : Configurable.t) (f : formatter)
    (lvl : Z) (message fn : string) (lno : Z) (w : World) :
  let st' :=
    Configurable.set_formatter Formatter.format
      (Configurable.set_formatter f st) in
  Configurable.logger (fst (Configurable.log lvl message fn lno st' w))
  = fst (Logger.log lvl message fn lno (Configurable.logger st) w)
  /\ snd (Configurable.log lvl message fn lno st' w)
     = snd (Logger.log lvl message fn lno (Configurable.logger st) w).
Proof.
  cbv zeta.
  apply (cf_log_agrees
           (Configurable.set_formatter Formatter.format
              (Configurable.set_formatter f st))).
  - reflexivity.
  - simpl. now destruct (Logger._file_handler (Configurable.logger st)).
Qed.

(** ** The properties at the sample objects *)

Lemma sample_logger_built : Logger_built sample_logger.
Proof.
  apply (lg_init sample_kwargs (sample_world []) sample_logger
           (snd (FileHandler.init "svc" "logs" (sample_world [])))).
  reflexivity.
Defined.

Lemma sample_handler_built : FileHandler_built sample_handler.
Proof. apply fh_init. Defined.

Lemma console_line_witness :
  let w := sample_started [day2; day2; day2] in
  let now := clock w (ticks w) in
  written_to Stderr
    (drop (List.length (trace w))
       (trace (snd (log_method SError "boom" "/srv/app/main.py" 7
                      sample_logger w))))
  = (LogLevelColors.value (severity_colour SError)
     ++ ("[" ++ (strftime_Ymd now ++ " " ++ strftime_HMS now ++ ","
                   ++ zfill 3 (decimal (microsecond now / 1000)))
           ++ "] | " ++ RelativePathFilter.redact "/srv/app/main.py" (cwd w)
           ++ ":" ++ decimal 7 ++ " | "
           ++ logging.getLevelName (severity_level SError) ++ " | " ++ "boom")
     ++ LogLevelColors.value LogLevelColors.ENDC) ++ String Formatter.LF "".
Proof.
  apply (console_line sample_logger SError "boom" "/srv/app/main.py" 7
           (sample_started [day2; day2; day2]) sample_logger_built).
  vm_compute. discriminate.
Defined.

Lemma file_line_witness :
  let w := sample_started [day2; day2; day2] in
  exists p',
    files (snd (log_method SError "boom" "/srv/app/main.py" 7 sample_logger w))
      !! p' <> None.
Proof.
  cbv zeta.
  assert (Hle : (Logger.level sample_logger <= severity_level SError)%Z)
    by (vm_compute; discriminate).
  destruct (file_line sample_logger SError "boom" "/srv/app/main.py" 7
              (sample_started [day2; day2; day2])
              (FileHandler.addFilter RelativePathFilter.filter sample_handler)
              sample_logger_built eq_refl Hle)
    as (fh' & p' & text & _ & _ & _ & _ & Hfile).
  exists p'. rewrite Hfile. discriminate.
Defined.

Lemma sinks_receive_same_text_witness :
  let w := sample_started [day2; day2; day2] in
  let w' := snd (log_method SError "boom" "/srv/app/main.py" 7 sample_logger w) in
  exists p',
    written_to (FileStream p') (drop (List.length (trace w)) (trace w'))
    = written_to Stderr (drop (List.length (trace w)) (trace w')).
Proof.
  cbv zeta.
  assert (Hle : (Logger.level sample_logger <= severity_level SError)%Z)
    by (vm_compute; discriminate).
  assert (Hne : cwd (sample_started [day2; day2; day2]) <> "")
    by (vm_compute; discriminate).
  destruct (sinks_receive_same_text sample_logger SError "boom"
              "/srv/app/main.py" 7 (sample_started [day2; day2; day2])
              (FileHandler.addFilter RelativePathFilter.filter sample_handler)
              sample_logger_built eq_refl Hle Hne eq_refl)
    as (fh' & p' & _ & _ & Heq).
  exists p'. exact Heq.
Defined.

Lemma emit_only_appends_witness :
  let w := sample_started [day2; day2] in
  files w !! "/srv/app/logs/2024-01-01-svc.log" = Some ""
  /\ exists suffix,
       files (snd (FileHandler.emit sample_handler sample_record w))
         !! "/srv/app/logs/2024-01-01-svc.log"
       = Some ("" ++ suffix).
Proof.
  cbv zeta. split; [reflexivity|].
  apply (proj1 (emit_only_appends sample_handler sample_record
                  (sample_started [day2; day2]) sample_handler_built)).
  reflexivity.
Defined.

Lemma init_on_existing_file_witness :
  let w := sample_started [day1] in
  dirs (snd (FileHandler.init "svc" "logs" w)) = dirs w
  /\ files (snd (FileHandler.init "svc" "logs" w)) = files w.
Proof.
  cbv zeta.
  assert (Hdir : abspath (cwd (sample_started [day1])) "logs"
                 ∈ dirs (sample_started [day1]))
    by (apply (bool_decide_unpack _); vm_compute; exact I).
  destruct (init_on_existing_file "svc" "logs" (sample_started [day1]) ""
              Hdir eq_refl) as (Hd & Hf & _).
  split; [exact Hd | exact Hf].
Defined.

Lemma emit_keeps_configuration_witness :
  let w := sample_started [day2; day2] in
  FileHandler.folder (fst (FileHandler.emit sample_handler sample_record w))
  = "logs"
  /\ FileHandler.mode (fst (FileHandler.emit sample_handler sample_record w))
     = "a".
Proof.
  cbv zeta.
  destruct (emit_keeps_configuration sample_handler sample_record
              (sample_started [day2; day2]) sample_handler_built)
    as (Hfolder & _ & Hmode & _).
  split; [exact Hfolder | exact Hmode].
Defined.

Lemma log_keeps_configuration_witness :
  let w := sample_started [day2; day2; day2] in
  Logger.name (fst (Logger.log 25 "boom" "/srv/app/main.py" 7 sample_logger w))
  = "svc".
Proof.
  exact (proj1 (log_keeps_configuration sample_logger 25 "boom"
                  "/srv/app/main.py" 7 (sample_started [day2; day2; day2])
                  sample_logger_built)).
Defined.

Lemma valid_day1 : valid_date day1.
Proof. unfold valid_date. simpl. lia. Defined.

Lemma valid_day2 : valid_date day2.
Proof. unfold valid_date. simpl. lia. Defined.

Lemma log_file_per_date_witness :
  abspath "/srv/app" (FileHandler.filename "logs" day1 "svc")
  <> abspath "/srv/app" (FileHandler.filename "logs" day2 "svc").
Proof.
  intros E.
  apply (proj1 (log_file_per_date "/srv/app" "logs" "svc" day1 day2
                  valid_day1 valid_day2)) in E.
  discriminate E.
Defined.

Lemma two_days_two_files_witness :
  let w := sample_started [day1; day2; day2] in
  let w2 :=
    snd (FileHandler.emit
           (fst (FileHandler.emit sample_handler sample_record w))
           sample_record
           (snd (FileHandler.emit sample_handler sample_record w))) in
  exists text,
    files w2 !! "/srv/app/logs/2024-01-01-svc.log"
    = Some (text ++ String Formatter.LF "")
    /\ files w2 !! "/srv/app/logs/2024-01-02-svc.log"
       = Some (text ++ String Formatter.LF "").
Proof.
  cbv zeta.
  assert (Hnew : date (default (cls_last_entry (sample_started [day1; day2; day2]))
                         (FileHandler._last_entry sample_handler))
                 <> date (clock (sample_started [day1; day2; day2])
                            (S (ticks (sample_started [day1; day2; day2])))))
    by (vm_compute; congruence).
  assert (Hdiff : date (clock (sample_started [day1; day2; day2])
                          (S (S (ticks (sample_started [day1; day2; day2])))))
                  <> date day1)
    by (vm_compute; congruence).
  destruct (two_days_two_files sample_handler sample_record sample_record
              (sample_started [day1; day2; day2]) _ _ day1
              sample_handler_built valid_day1 valid_day2
              eq_refl eq_refl eq_refl eq_refl Hnew Hdiff)
    as (_ & H1 & H2 & _).
  eexists. split; [exact H1 | exact H2].
Defined.

Lemma custom_level_reaches_no_file_witness :
  let w := sample_started [day2; day2; day2] in
  files w !! "/srv/app/logs/2024-01-01-svc.log" = Some ""
  /\ files (snd (Logger.log 25 "boom" "/srv/app/main.py" 7 sample_logger w))
       !! "/srv/app/logs/2024-01-01-svc.log" = Some "".
Proof.
  cbv zeta. split; [reflexivity|].
  assert (Hlvl : ~ In 25%Z [logging.DEBUG; logging.INFO; logging.WARNING;
                            logging.ERROR; logging.CRITICAL])
    by (simpl; intuition discriminate).
  apply (proj1 (proj2 (custom_level_reaches_no_file sample_logger 25 "boom"
                         "/srv/app/main.py" 7 (sample_started [day2; day2; day2])
                         sample_logger_built eq_refl Hlvl))).
  reflexivity.
Defined.

Lemma redacted_path_hides_root_witness :
  PyStr.contains "/srv" (RelativePathFilter.redact "/srv/app/srv/x.py" "/srv")
  = false.
Proof. apply redacted_path_hides_root; [discriminate | reflexivity]. Defined.

Lemma redact_never_lengthens_witness :
  String.length (RelativePathFilter.redact "/srv/app/srv/x.py" "/srv")
  <= String.length "/srv/app/srv/x.py".
Proof. apply redact_never_lengthens. discriminate. Defined.

Lemma set_formatter_applies_witness :
  let w := sample_started [day2; day2; day2] in
  exists st,
    Configurable.init sample_kwargs (sample_world [])
    = Logger.Ok (st, snd (FileHandler.init "svc" "logs" (sample_world [])))
    /\ written_to Stderr
         (drop (List.length (trace w))
            (trace (snd (Configurable.log logging.ERROR "boom" "/srv/app/main.py"
                           7 (Configurable.set_formatter message_only st) w))))
       = "boom" ++ String Formatter.LF "".
Proof.
  cbv zeta.
  exists (Configurable.mk sample_logger Formatter.format Formatter.format).
  assert (Hinit : Configurable.init sample_kwargs (sample_world [])
                  = Logger.Ok (Configurable.mk sample_logger Formatter.format
                                 Formatter.format,
                               snd (FileHandler.init "svc" "logs"
                                      (sample_world []))))
    by reflexivity.
  split; [exact Hinit|].
  exact (proj1 (set_formatter_applies
                  (Configurable.mk sample_logger Formatter.format Formatter.format)
                  message_only logging.ERROR "boom" "/srv/app/main.py" 7
                  (sample_started [day2; day2; day2]) "boom" "boom"
                  (cf_init _ _ _ _ Hinit) eq_refl eq_refl eq_refl)).
Defined.

(** ** Rotation and level checks *)

Lemma emit_ticks h record w p :
  FileHandler.stream h = Some p ->
  ticks (snd (FileHandler.emit h record w))
  = if bool_decide (date (default (cls_last_entry w) (FileHandler._last_entry h))
                    <> date (clock w (ticks w)))
    then S (S (ticks w)) else S (ticks w).
Proof.
  intros Hs. destruct h; simpl in *; subst. run_io.
  case_bool_decide as Hd; simpl; destruct (Formatter.format record); reflexivity.
Qed.

(** X18: a rotation settles: when the write after a rotating write finds
    the clock on the date the rotation stored, it leaves the handler as it
    is and neither closes nor opens a file. *)
Theorem rotation_settles (h : FileHandler.t) (r1 r2 : LogRecord) (w : World) :
  FileHandler_built h ->
  date (default (cls_last_entry w) (FileHandler._last_entry h))
    <> date (clock w (ticks w)) ->
  date (clock w (S (S (ticks w)))) = date (clock w (S (ticks w))) ->
  let h1 := fst (FileHandler.emit h r1 w) in
  let w1 := snd (FileHandler.emit h r1 w) in
  let steps :=
    drop (List.length (trace w1)) (trace (snd (FileHandler.emit h1 r2 w1))) in
  fst (FileHandler.emit h1 r2 w1) = h1
  /\ count is_open steps = 0 /\ count is_close steps = 0.
Proof.
  intros Hb Hrot Hnext h1 w1 steps.
  destruct (FileHandler_built_open h Hb) as [_ [p Hs]].
  pose proof (emit_handler h r1 w p Hs) as Hh1.
  rewrite bool_decide_eq_true_2 in Hh1 by exact Hrot. fold h1 in Hh1.
  pose proof (emit_ticks h r1 w p Hs) as Hticks.
  rewrite bool_decide_eq_true_2 in Hticks by exact Hrot. fold w1 in Hticks.
  destruct (emit_frame h r1 w) as (_ & _ & Hclock). fold w1 in Hclock.
  assert (Hs1 : FileHandler.stream h1
                = Some (abspath (cwd w)
                          (FileHandler.filename (FileHandler.folder h)
                             (clock w (S (ticks w))) (FileHandler.ext h))))
    by now rewrite Hh1.
  assert (Hsame : date (default (cls_last_entry w1) (FileHandler._last_entry h1))
                  = date (clock w1 (ticks w1))).
  { rewrite Hticks, Hclock, Hh1. simpl. now rewrite Hnext. }
  split.
  - rewrite (emit_handler h1 r2 w1 _ Hs1).
    now rewrite bool_decide_eq_false_2 by auto.
  - destruct (emit_same_day_events h1 r2 w1 _ Hs1 Hsame)
      as (rest & Ht & Ho & Hc & _).
    subst steps. rewrite Ht, drop_app_length. auto.
Qed.

Lemma rotation_settles_witness :
  let w := sample_started [day2; day2; day2] in
  let h1 := fst (FileHandler.emit sample_handler sample_record w) in
  let w1 := snd (FileHandler.emit sample_handler sample_record w) in
  fst (FileHandler.emit h1 sample_record w1) = h1.
Proof.
  cbv zeta.
  assert (Hrot : date (default (cls_last_entry (sample_started [day2; day2; day2]))
                         (FileHandler._last_entry sample_handler))
                 <> date (clock (sample_started [day2; day2; day2])
                            (ticks (sample_started [day2; day2; day2]))))
    by (vm_compute; congruence).
  exact (proj1 (rotation_settles sample_handler sample_record sample_record
                  (sample_started [day2; day2; day2]) sample_handler_built
                  Hrot eq_refl)).
Defined.

(** Whatever its formatter says, [emit] only adds events to the trace,
    and none of them is a record. *)
Lemma emit_adds_no_record h record w p :
  FileHandler.stream h = Some p ->
  exists rest,
    trace (snd (FileHandler.emit h record w)) = (trace w ++ rest)%list
    /\ count is_record rest = 0.
Proof.
  intros Hs. destruct h; simpl in *; subst. run_io.
  case_bool_decide; simpl; destruct (Formatter.format record); simpl;
    flatten_trace;
    first [ eexists; split; reflexivity
          | exists []; rewrite List.app_nil_r; split; reflexivity ].
Qed.

(** An enabled call of [log] first builds its record, stamped with the
    current time, and nothing after it is a record. *)
Lemma log_enabled_head lg lvl message fn lno w :
  Logger_inv lg ->
  Logger.isEnabledFor lg lvl = true ->
  exists rest,
    drop (List.length (trace w))
         (trace (snd (Logger.log lvl message fn lno lg w)))
    = EvRecord (mk_record (Logger.name lg) lvl (logging.getLevelName lvl) fn
                  lno message NoArgs (clock w (ticks w)) "" "") :: rest
    /\ count is_record rest = 0.
Proof.
  intros [Hf Hfh] Hen.
  destruct (Logger.log lvl message fn lno lg w) as [lg' w'] eqn:E.
  unfold Logger.log in E. rewrite Hen in E.
  unfold Logger._log, Logger.callHandlers, logging.StreamHandler_handle,
    logging.Filterer_filter, FileHandler.handle in E.
  rewrite Hf in E.
  destruct (Logger._file_handler lg) as [fh|] eqn:Efh.
  - destruct (Hfh fh eq_refl) as (Hm & [p Hs] & Hff). rewrite Hff in E.
    unfold logging.StreamHandler_emit, stream_write, stream_flush, emit_event,
      today, getcwd, bind, ret in E. simpl in E.
    destruct (Formatter.format _) as [text|] in E at 1; simpl in E;
      match type of E with
      | context [FileHandler.emit fh ?r ?w] =>
          destruct (emit_adds_no_record fh r w p Hs) as (rest & Ht & Hrec);
          destruct (FileHandler.emit fh r w) as [fh' w3]
      end;
      simpl in E, Ht; injection E as <- <-; simpl; rewrite Ht; simpl;
      flatten_trace; rewrite drop_app_length;
      eexists; (split; [reflexivity|]); exact Hrec.
  - unfold logging.StreamHandler_emit, stream_write, stream_flush, emit_event,
      today, getcwd, bind, ret in E. simpl in E.
    destruct (Formatter.format _) as [text|] in E; simpl in E;
      injection E as <- <-; simpl; flatten_trace; rewrite drop_app_length;
      eexists; (split; [reflexivity|]); reflexivity.
Qed.

(** X19: [log] acts exactly at the positive levels from the logger's level
    on.  At such a level a built logger builds one record, for the given
    message, file and line and stamped with the current time, before
    anything else happens, and no second one; at any other level,
    non-positive ones included whatever the logger's level, the call leaves
    the logger and the environment as they are. *)
Theorem log_acts_iff (lg : Logger.t) (lvl : Z) (message fn : string) (lno : Z)
    (w : World) :
  let w' := snd (Logger.log lvl message fn lno lg w) in
  let steps := drop (List.length (trace w)) (trace w') in
  let record :=
    mk_record (Logger.name lg) lvl (logging.getLevelName lvl) fn lno message
              NoArgs (clock w (ticks w)) "" "" in
  (Logger.isEnabledFor lg lvl = true <-> (0 < lvl /\ Logger.level lg <= lvl)%Z)
  /\ (Logger_built lg -> (0 < lvl /\ Logger.level lg <= lvl)%Z ->
      exists rest, steps = EvRecord record :: rest /\ count is_record rest = 0)
  /\ (~ (0 < lvl /\ Logger.level lg <= lvl)%Z ->
      Logger.log lvl message fn lno lg w = (lg, w)).
Proof.
  cbv zeta.
  assert (Hiff : Logger.isEnabledFor lg lvl = true
                 <-> (0 < lvl /\ Logger.level lg <= lvl)%Z).
  { unfold Logger.isEnabledFor, Logger.getEffectiveLevel,
      logging.manager_disable, logging.NOTSET, Z.geb.
    destruct (0 ?= lvl)%Z eqn:E0;
      rewrite ?Z.compare_lt_iff, ?Z.compare_gt_iff, ?Z.compare_eq_iff in E0;
      try (split; [discriminate | lia]).
    destruct (Z.eqb_spec (Logger.level lg) 0) as [Hl|Hl];
      [destruct (lvl ?= 0)%Z eqn:E | destruct (lvl ?= Logger.level lg)%Z eqn:E];
      rewrite ?Z.compare_lt_iff, ?Z.compare_gt_iff, ?Z.compare_eq_iff in E;
      split; try discriminate; try reflexivity; lia. }
  split; [exact Hiff|]. split.
  - intros Hb Hlvl.
    apply log_enabled_head; [now apply Logger_built_inv | now apply Hiff].
  - intros Hnot. unfold Logger.log.
    destruct (Logger.isEnabledFor lg lvl); [|reflexivity].
    exfalso. apply Hnot, Hiff. reflexivity.
Qed.

Lemma log_acts_iff_witness :
  (exists rest,
     drop (List.length (trace (sample_started [])))
       (trace (snd (Logger.log 25 "boom" "/srv/app/main.py" 7 sample_logger
                      (sample_started []))))
     = EvRecord (mk_record "svc" 25 "Level 25" "/srv/app/main.py" 7 "boom"
                   NoArgs day1 "" "") :: rest
     /\ count is_record rest = 0)
  /\ Logger.log 0 "boom" "/srv/app/main.py" 7 sample_logger (sample_started [])
     = (sample_logger, sample_started []).
Proof.
  split.
  - apply (proj1 (proj2 (log_acts_iff sample_logger 25 "boom" "/srv/app/main.py"
                           7 (sample_started []))));
      [exact sample_logger_built | vm_compute; split; [reflexivity | discriminate]].
  - apply (proj2 (proj2 (log_acts_iff sample_logger 0 "boom" "/srv/app/main.py"
                           7 (sample_started [])))).
    lia.
Defined.
